(** * hydroctrl: pH electrode model, ADC sampling and stepper pump

    A shallow embedding of [ph.py] and [pump.py].

    Python floats are modelled by rationals ([Q]).  Where a result is a
    real quantity (a slope, a voltage, a pH) the arithmetic is exact and
    the statements are about the exact arithmetic the code approximates,
    compared with [==] ([Qeq]).  Where the code takes a decision on a
    double (how many pulses to emit, whether a calibration is accepted)
    each operation is rounded to the nearest double by [fl], as the
    hardware does; values beyond the range of doubles (infinities, NaN)
    are outside the model.  Python exceptions are
    an explicit [result] type; code that talks to the I2C bus or to the
    GPIO lines threads the state of that device through a small
    state-and-exception monad. *)

From Stdlib Require Import QArith Qabs Qround ZArith List Bool Lia Lqa String.
From Stdlib Require Import Strings.Byte.
From Corelib Require Import PrimFloat FloatOps SpecFloat.
Import ListNotations.
Open Scope Q_scope.

(** ** Exceptions and results *)

(** [raise Exception(fmt % args)]: the message is kept as its format
    string and the numbers formatted into it. *)
Inductive exn : Type :=
| Exception (fmt : string) (args : list Q)
| ZeroDivisionError
| IndexError
| ValueError
| OSError
| StatisticsError.

Inductive result (A : Type) : Type :=
| Ok (a : A)
| Raise (e : exn).
Arguments Ok {A} a.
Arguments Raise {A} e.

Definition bind_result {A B} (r : result A) (k : A -> result B) : result B :=
  match r with
  | Ok a => k a
  | Raise e => Raise e
  end.

Notation "'let?' x ':=' r 'in' k" := (bind_result r (fun x => k))
  (at level 10, x name, r at level 100, k at level 200).

Definition is_ok {A} (r : result A) : bool :=
  match r with Ok _ => true | Raise _ => false end.

(** ** Numbers *)

Definition Qltb (a b : Q) : bool := negb (Qle_bool b a).

(** Python's [a / b] on floats: raises on a zero divisor. *)
Definition py_div (a b : Q) : result Q :=
  if Qeq_bool b 0 then Raise ZeroDivisionError else Ok (a / b).

(** [int(x)]: truncation toward zero. *)
Definition py_int (x : Q) : Z := Z.quot (Qnum x) (Zpos (Qden x)).


(** ** Double precision

    [fl q] is the double (IEEE 754 binary64) nearest to [q], ties to the
    even mantissa, subnormal numbers included: the mantissa has 53 bits and
    the exponent of its last bit is at least -1074. *)

Definition pow2 (e : Z) : Q :=
  if (0 <=? e)%Z then inject_Z (2 ^ e) else 1 # Z.to_pos (2 ^ (- e)).

(** The integer nearest to [n / d], ties to even, for [0 <= n], [0 < d]. *)
Definition round_half_even (n d : Z) : Z :=
  let m := (n / d)%Z in
  match (2 * (n mod d) ?= d)%Z with
  | Lt => m
  | Gt => (m + 1)%Z
  | Eq => if Z.even m then m else (m + 1)%Z
  end.

Definition fl (q : Q) : Q :=
  let n := Z.abs (Qnum q) in
  let d := Zpos (Qden q) in
  if (n =? 0)%Z then 0
  else
    let e0 := (Z.log2 n - Z.log2 d - 52)%Z in
    let below :=
      (n * 2 ^ Z.max 0 (- e0) <? 2 ^ 52 * (d * 2 ^ Z.max 0 e0))%Z in
    let e := Z.max (if below then e0 - 1 else e0) (-1074) in
    let m := round_half_even (n * 2 ^ Z.max 0 (- e)) (d * 2 ^ Z.max 0 e) in
    Qred (inject_Z (Z.sgn (Qnum q) * m) * pow2 e).

(** The rational a finite hardware double stands for, to compare [fl]
    with the arithmetic of the machine. *)
Definition Q_of_float (x : float) : option Q :=
  match Prim2SF x with
  | S754_zero _ => Some 0
  | S754_finite s m e =>
      Some (Qred (inject_Z (if s then Z.neg m else Z.pos m) * pow2 e))
  | _ => None
  end.

(** ** The configuration module, as [ph.py] and [pump.py] read it *)

Module settings.

Record point : Type := {
  ph : Q;
  voltage : Q
}.

Record ph_calibration : Type := {
  points : list point;
  temperature : Q
}.

Record pump_calibration : Type := {
  steps_per_litre : Q
}.

Record t : Type := {
  PH_CALIBRATION : ph_calibration;
  PH_ADC_V_OFFSET : Q;
  PH_ADC_V_REF : Q;
  PH_ADC_I2C_BUSN : Z;
  PH_ADC_I2C_ADDR : Z;
  PUMP_CALIBRATION : pump_calibration;
  PUMP_GPIO_SLEEP : Z;
  PUMP_GPIO_STEP : Z
}.

End settings.

(** ** [class PHTheory] *)

Module PHTheory.

Definition gas_const : Q := 8.3144.
Definition faraday_const : Q := 96485.
Definition abs_zero_temp : Q := -273.15.
Definition ln_10 : Q := 2.3026.

Definition temperature_out_of_range : exn :=
  Exception "Temperature is out of range" [].

(** Slope of the ideal pH electrode, in V/pH. *)
Definition ideal_slope (temp : Q) : result Q :=
  if Qltb temp 0 || Qltb 100 temp then Raise temperature_out_of_range
  else Ok (gas_const * (temp - abs_zero_temp) * ln_10 / faraday_const).

(** Relative slope of the pH electrode.  The quotient of the two
    differences is taken before [ideal_slope] is called. *)
Definition compute_slope (temp ph1 v1 ph2 v2 : Q) : result Q :=
  let? q := py_div (v1 - v2) (ph2 - ph1) in
  let? i := ideal_slope temp in
  py_div q i.

(** Offset voltage. *)
Definition compute_offset (temp slope ph v : Q) : result Q :=
  let? i := ideal_slope temp in
  Ok (v + slope * i * (ph - 7)).

Definition compute_ph (temp offset slope v : Q) : result Q :=
  let? i := ideal_slope temp in
  let? d := py_div (offset - v) (slope * i) in
  Ok (7 + d).

End PHTheory.

(** The value [ideal_slope] returns for a temperature it accepts. *)
Definition nernst (temp : Q) : Q :=
  PHTheory.gas_const * (temp - PHTheory.abs_zero_temp) * PHTheory.ln_10
  / PHTheory.faraday_const.

(** ** [class PHCalibration] *)

Module PHCalibration.

Record t : Type := {
  slope : Q;
  offset : Q
}.

Definition max_slope_drift : Q := 0.2.
Definition max_v_ph7_drift : Q := 30e-3.

Definition unsupported_arity : exn :=
  Exception "Only two point calibration is supported" [].
Definition slope_out_of_range (slope : Q) : exn :=
  Exception "Electrode slope %.2f is out of range, replace the electrode"
            [slope].
Definition offset_out_of_range (v_ph7 : Q) : exn :=
  Exception "Electrode offset %.0f mV is out of range, replace the electrode"
            [v_ph7 * 1e3].

(** [__init__], in exact arithmetic: the slope and the offset it stores.
    Whether it raises is decided on doubles, see [Double.__init__].  The
    status line printed on success is not modelled. *)
Definition __init__ (cfg : settings.t) : result t :=
  match settings.points (settings.PH_CALIBRATION cfg) with
  | [point1; point2] =>
      let temp := settings.temperature (settings.PH_CALIBRATION cfg) in
      let? slope := PHTheory.compute_slope temp
                      (settings.ph point1) (settings.voltage point1)
                      (settings.ph point2) (settings.voltage point2) in
      let? offset := PHTheory.compute_offset temp slope
                       (settings.ph point1) (settings.voltage point1) in
      if Qltb max_slope_drift (Qabs (slope - 1))
      then Raise (slope_out_of_range slope)
      else
        let v_ph7 := offset - settings.PH_ADC_V_OFFSET cfg in
        if Qltb max_v_ph7_drift (Qabs v_ph7)
        then Raise (offset_out_of_range v_ph7)
        else Ok {| slope := slope; offset := offset |}
  | _ => Raise unsupported_arity
  end.

Definition compute_ph (self : t) (temp v : Q) : result Q :=
  PHTheory.compute_ph temp (offset self) (slope self) v.

End PHCalibration.

(** Calibration data of an electrode with a given relative slope and a
    given pH 7 voltage, taken at 25 degrees with buffers of pH 4 and 7 and
    an ADC offset of 1.251 V. *)
Definition electrode (rel_slope v_ph7 : Q) : settings.t :=
  {| settings.PH_CALIBRATION :=
       {| settings.points :=
            [ {| settings.ph := 4;
                 settings.voltage := 1.251 + v_ph7 + rel_slope * nernst 25 * 3 |};
              {| settings.ph := 7;
                 settings.voltage := 1.251 + v_ph7 |} ];
          settings.temperature := 25 |};
     settings.PH_ADC_V_OFFSET := 1.251;
     settings.PH_ADC_V_REF := 2.5;
     settings.PH_ADC_I2C_BUSN := 1;
     settings.PH_ADC_I2C_ADDR := 79;
     settings.PUMP_CALIBRATION := {| settings.steps_per_litre := 1050 |};
     settings.PUMP_GPIO_SLEEP := 17;
     settings.PUMP_GPIO_STEP := 27 |}.

(** Two buffers of the same pH. *)
Definition same_buffer_twice : settings.t :=
  {| settings.PH_CALIBRATION :=
       {| settings.points :=
            [ {| settings.ph := 7; settings.voltage := 1.224 |};
              {| settings.ph := 7; settings.voltage := 1.230 |} ];
          settings.temperature := 25 |};
     settings.PH_ADC_V_OFFSET := 1.251;
     settings.PH_ADC_V_REF := 2.5;
     settings.PH_ADC_I2C_BUSN := 1;
     settings.PH_ADC_I2C_ADDR := 79;
     settings.PUMP_CALIBRATION := {| settings.steps_per_litre := 1050 |};
     settings.PUMP_GPIO_SLEEP := 17;
     settings.PUMP_GPIO_STEP := 27 |}.

(** ** The constructor in double precision

    [PHCalibration.__init__] decides on doubles: whether it raises depends
    on the slope and the offset as the machine computes them.  [Double]
    holds the functions the constructor runs with every operation rounded
    by [fl], in the order Python evaluates them; the configuration values
    are doubles. *)

Module Double.

Definition add (a b : Q) : Q := fl (a + b).
Definition sub (a b : Q) : Q := fl (a - b).
Definition mul (a b : Q) : Q := fl (a * b).
Definition div (a b : Q) : result Q :=
  if Qeq_bool b 0 then Raise ZeroDivisionError else Ok (fl (a / b)).

Definition gas_const : Q := fl 8.3144.
Definition faraday_const : Q := 96485.
Definition abs_zero_temp : Q := fl (-273.15).
Definition ln_10 : Q := fl 2.3026.

Definition ideal_slope (temp : Q) : result Q :=
  if Qltb temp 0 || Qltb 100 temp then Raise PHTheory.temperature_out_of_range
  else div (mul (mul gas_const (sub temp abs_zero_temp)) ln_10) faraday_const.

Definition compute_slope (temp ph1 v1 ph2 v2 : Q) : result Q :=
  let? q := div (sub v1 v2) (sub ph2 ph1) in
  let? i := ideal_slope temp in
  div q i.

Definition compute_offset (temp slope ph v : Q) : result Q :=
  let? i := ideal_slope temp in
  Ok (add v (mul (mul slope i) (sub ph 7))).

Definition max_slope_drift : Q := fl 0.2.
Definition max_v_ph7_drift : Q := fl 30e-3.

Definition slope_out_of_range (slope : Q) : exn :=
  Exception "Electrode slope %.2f is out of range, replace the electrode"
            [slope].
Definition offset_out_of_range (v_ph7 : Q) : exn :=
  Exception "Electrode offset %.0f mV is out of range, replace the electrode"
            [mul v_ph7 1e3].

Definition __init__ (cfg : settings.t) : result PHCalibration.t :=
  match settings.points (settings.PH_CALIBRATION cfg) with
  | [point1; point2] =>
      let temp := settings.temperature (settings.PH_CALIBRATION cfg) in
      let? slope := compute_slope temp
                      (settings.ph point1) (settings.voltage point1)
                      (settings.ph point2) (settings.voltage point2) in
      let? offset := compute_offset temp slope
                       (settings.ph point1) (settings.voltage point1) in
      if Qltb max_slope_drift (Qabs (sub slope 1))
      then Raise (slope_out_of_range slope)
      else
        let v_ph7 := sub offset (settings.PH_ADC_V_OFFSET cfg) in
        if Qltb max_v_ph7_drift (Qabs v_ph7)
        then Raise (offset_out_of_range v_ph7)
        else Ok {| PHCalibration.slope := slope;
                   PHCalibration.offset := offset |}
  | _ => Raise PHCalibration.unsupported_arity
  end.

End Double.

(** A two-point configuration whose values are the doubles Python reads
    for the given decimals. *)
Definition two_points (temp ph1 v1 ph2 v2 v_off : Q) : settings.t :=
  {| settings.PH_CALIBRATION :=
       {| settings.points :=
            [ {| settings.ph := fl ph1; settings.voltage := fl v1 |};
              {| settings.ph := fl ph2; settings.voltage := fl v2 |} ];
          settings.temperature := fl temp |};
     settings.PH_ADC_V_OFFSET := fl v_off;
     settings.PH_ADC_V_REF := fl 2.5;
     settings.PH_ADC_I2C_BUSN := 1;
     settings.PH_ADC_I2C_ADDR := 79;
     settings.PUMP_CALIBRATION := {| settings.steps_per_litre := 1050 |};
     settings.PUMP_GPIO_SLEEP := 17;
     settings.PUMP_GPIO_STEP := 27 |}.

(** The calibration data of [settings.py]. *)
Definition settings_py : settings.t :=
  two_points 21.2 4.0 1.418 7.0 1.224 1.251.

(** The voltage, computed in doubles at 25 degrees, of an electrode of a
    given relative slope and pH 7 voltage in a buffer of pH 4:
    [1.251 + v_ph7 + rel_slope * ideal_slope(25) * 3]. *)
Definition buffer4_voltage (rel_slope v_ph7 : Q) : Q :=
  match Double.ideal_slope 25 with
  | Ok i =>
      Double.add (Double.add (fl 1.251) (fl v_ph7))
        (Double.mul (Double.mul (fl rel_slope) i) 3)
  | Raise _ => 0
  end.

(** The configuration calibrated on that electrode in buffers of pH 4 and
    pH 7. *)
Definition electrode_double (rel_slope v_ph7 : Q) : settings.t :=
  {| settings.PH_CALIBRATION :=
       {| settings.points :=
            [ {| settings.ph := 4;
                 settings.voltage := buffer4_voltage rel_slope v_ph7 |};
              {| settings.ph := 7;
                 settings.voltage := Double.add (fl 1.251) (fl v_ph7) |} ];
          settings.temperature := 25 |};
     settings.PH_ADC_V_OFFSET := fl 1.251;
     settings.PH_ADC_V_REF := fl 2.5;
     settings.PH_ADC_I2C_BUSN := 1;
     settings.PH_ADC_I2C_ADDR := 79;
     settings.PUMP_CALIBRATION := {| settings.steps_per_litre := 1050 |};
     settings.PUMP_GPIO_SLEEP := 17;
     settings.PUMP_GPIO_STEP := 27 |}.

(** ** State and exceptions

    A computation over a device state [S]: it returns the state it leaves
    behind together with a value or the exception it raised.  What was done
    to the device before an exception stays done. *)

Definition M (S A : Type) : Type := S -> S * result A.

Definition ret {S A} (a : A) : M S A := fun s => (s, Ok a).

Definition lift {S A} (r : result A) : M S A := fun s => (s, r).

Definition bind {S A B} (m : M S A) (k : A -> M S B) : M S B :=
  fun s =>
    match m s with
    | (s', Ok a) => k a s'
    | (s', Raise e) => (s', Raise e)
    end.

Notation "x <- m ;; k" := (bind m (fun x => k))
  (at level 61, m at next level, right associativity).
Notation "m ;; k" := (bind m (fun _ => k))
  (at level 61, right associativity).

(** [for _ in range(0, n): body] *)
Fixpoint for_range {S} (n : nat) (body : M S unit) : M S unit :=
  match n with
  | O => ret tt
  | S n' => body ;; for_range n' body
  end.

(** [l[i]] on a list. *)
Definition getitem {A} (l : list A) (i : nat) : result A :=
  match nth_error l i with
  | Some x => Ok x
  | None => Raise IndexError
  end.

(** ** The [statistics] functions [ph.py] imports

    [math.sqrt] is not rational; the square root is a parameter [sqrt] of
    the functions that need it. *)

Module statistics.

Definition sum (data : list Q) : Q := fold_right Qplus 0 data.

Definition mean (data : list Z) : result Q :=
  match data with
  | [] => Raise StatisticsError
  | _ => Ok (sum (map inject_Z data) / inject_Z (Z.of_nat (List.length data)))
  end.

Definition pvariance (data : list Z) : result Q :=
  let? mu := mean data in
  Ok (sum (map (fun x => (inject_Z x - mu) * (inject_Z x - mu)) data)
      / inject_Z (Z.of_nat (List.length data))).

Definition pstdev (sqrt : Q -> Q) (data : list Z) : result Q :=
  let? var := pvariance data in
  Ok (sqrt var).

End statistics.

(** ** [smbus.SMBus]

    The bus primitive.  [wire] holds the bytes the addressed device will
    deliver, in order; a block read of [len] bytes takes the next [len] of
    them and fails when the device has fewer to give.  [transfers] records
    the reads that were made. *)

Module SMBus.

Record t : Type := {
  busn : Z;
  wire : list byte;
  transfers : list (Z * Z * nat)
}.

Definition byte_value (b : byte) : Z := Z.of_N (Byte.to_N b).

Definition read_i2c_block_data (addr cmd : Z) (len : nat) : M t (list Z) :=
  fun bus =>
    if (List.length (wire bus) <? len)%nat then (bus, Raise OSError)
    else ({| busn := busn bus;
             wire := skipn len (wire bus);
             transfers := transfers bus ++ [(addr, cmd, len)] |},
          Ok (map byte_value (firstn len (wire bus)))).

End SMBus.

(** ** [class ADCInterface] (MCP3221) *)

Module ADCInterface.

Definition adc_bits : Z := 12.

(** Noise filtering. *)
Definition filter_samples : nat := 256.

(** The dictionaries the [_with_stat] methods return. *)
Definition dict : Type := list (string * Q).

Fixpoint dict_get (d : dict) (key : string) : option Q :=
  match d with
  | [] => None
  | (k, v) :: d' => if String.eqb k key then Some v else dict_get d' key
  end.

Fixpoint dict_set (d : dict) (key : string) (value : Q) : dict :=
  match d with
  | [] => [(key, value)]
  | (k, v) :: d' =>
      if String.eqb k key then (k, value) :: d'
      else (k, v) :: dict_set d' key value
  end.

Definition dict_getitem (d : dict) (key : string) : result Q :=
  match dict_get d key with
  | Some v => Ok v
  | None => Raise (Exception "KeyError" [])
  end.

Section Methods.

Variable cfg : settings.t.
Variable sqrt : Q -> Q.

Definition value_to_voltage (value : Q) : Q :=
  value * settings.PH_ADC_V_REF cfg / inject_Z (Z.shiftl 1 adc_bits).

Definition __init__ (device : list byte) : SMBus.t :=
  {| SMBus.busn := settings.PH_ADC_I2C_BUSN cfg;
     SMBus.wire := device;
     SMBus.transfers := [] |}.

Definition _get_value : M SMBus.t Z :=
  reading <- SMBus.read_i2c_block_data (settings.PH_ADC_I2C_ADDR cfg) 0 2 ;;
  r0 <- lift (getitem reading 0) ;;
  r1 <- lift (getitem reading 1) ;;
  ret (Z.shiftl r0 8 + r1)%Z.

Fixpoint _get_values_from (n : nat) (values : list Z) : M SMBus.t (list Z) :=
  match n with
  | O => ret values
  | S n' => v <- _get_value ;; _get_values_from n' (values ++ [v])
  end.

Definition _get_values : M SMBus.t (list Z) :=
  _get_values_from filter_samples [].

Definition get_value : M SMBus.t Q :=
  values <- _get_values ;;
  lift (statistics.mean values).

Definition get_voltage : M SMBus.t Q :=
  value <- get_value ;;
  ret (value_to_voltage value).

Definition get_value_with_stat : M SMBus.t dict :=
  values <- _get_values ;;
  m <- lift (statistics.mean values) ;;
  d <- lift (statistics.pstdev sqrt values) ;;
  ret [("value"%string, m); ("value_dev"%string, d)].

Definition get_voltage_with_stat : M SMBus.t dict :=
  data <- get_value_with_stat ;;
  value <- lift (dict_getitem data "value") ;;
  let data := dict_set data "voltage" (value_to_voltage value) in
  value_dev <- lift (dict_getitem data "value_dev") ;;
  let data := dict_set data "voltage_dev" (value_to_voltage value_dev) in
  ret data.

End Methods.

End ADCInterface.

(** ** The pump's hardware: [RPi.GPIO] and [time.sleep]

    The board keeps the level last written to each channel and the trace
    of what was done to it, delays included. *)

Inductive event : Type :=
| EvSetmode
| EvSetup (channel : Z)
| EvOutput (channel : Z) (value : bool)
| EvSleep (secs : Q)
| EvCleanup.

Record board : Type := {
  level : Z -> bool;
  trace : list event
}.

Definition emit (e : event) : M board unit :=
  fun b => ({| level := level b; trace := trace b ++ [e] |}, Ok tt).

Definition GPIO_setmode : M board unit := emit EvSetmode.

Definition GPIO_setup (channel : Z) : M board unit := emit (EvSetup channel).

Definition GPIO_output (channel : Z) (value : bool) : M board unit :=
  fun b =>
    ({| level := fun c => if (c =? channel)%Z then value else level b c;
        trace := trace b ++ [EvOutput channel value] |}, Ok tt).

Definition GPIO_cleanup : M board unit := emit EvCleanup.

(** [time.sleep] refuses a negative delay. *)
Definition time_sleep (secs : Q) : M board unit :=
  if Qltb secs 0 then lift (Raise ValueError) else emit (EvSleep secs).

(** ** [class PumpInterface] *)

Module PumpInterface.

Record t : Type := {
  (* Pump properties *)
  max_rpm : Q;
  step_angle : Q;
  (* Driver properties *)
  wake_up_time : Q;
  microsteps : Q;
  (* Calibration data *)
  steps_per_litre : Q
}.

Definition max_step_frequency (self : t) : result Q :=
  let max_rotation_frequency := max_rpm self / 60 in
  let? turn := py_div 360 (step_angle self) in
  let steps_per_rotation := turn * microsteps self in
  Ok (max_rotation_frequency * steps_per_rotation).

(** An instance: the attributes of the class, and the calibration
    [__init__] stores. *)
Definition instance (steps : Q) : t :=
  {| max_rpm := 30;
     step_angle := 1.8;
     wake_up_time := 1e-3;
     microsteps := 8;
     steps_per_litre := steps |}.

Section Methods.

Variable cfg : settings.t.

Definition __init__ : M board t :=
  GPIO_setmode ;;
  GPIO_setup (settings.PUMP_GPIO_SLEEP cfg) ;;
  GPIO_setup (settings.PUMP_GPIO_STEP cfg) ;;
  GPIO_output (settings.PUMP_GPIO_SLEEP cfg) false ;;
  GPIO_output (settings.PUMP_GPIO_STEP cfg) false ;;
  ret (instance (settings.steps_per_litre (settings.PUMP_CALIBRATION cfg))).

Definition __del__ : M board unit := GPIO_cleanup.

(** The body of the loop of [step]: one pulse. *)
Definition pulse (self : t) : M board unit :=
  GPIO_output (settings.PUMP_GPIO_STEP cfg) true ;;
  f <- lift (max_step_frequency self) ;;
  d <- lift (py_div 0.5 f) ;;
  time_sleep d ;;
  GPIO_output (settings.PUMP_GPIO_STEP cfg) false ;;
  f <- lift (max_step_frequency self) ;;
  d <- lift (py_div 0.5 f) ;;
  time_sleep d.

Definition step (self : t) (count : Q) : M board unit :=
  GPIO_output (settings.PUMP_GPIO_SLEEP cfg) true ;;
  time_sleep (wake_up_time self) ;;
  for_range (Z.to_nat (py_int count)) (pulse self) ;;
  GPIO_output (settings.PUMP_GPIO_SLEEP cfg) false.

(** The product is a double: it is rounded before [step] truncates it. *)
Definition pump (self : t) (volume : Q) : M board unit :=
  step self (fl (volume * steps_per_litre self)).

End Methods.

End PumpInterface.

(** ** Observations on devices *)

(** A device that answers every read with the same two bytes, [n] times. *)
Definition constant_device (b0 b1 : byte) (n : nat) : list byte :=
  List.concat (repeat [b0; b1] n).

(** The bus after one two-byte read of the ADC that left [rest] on the
    wire. *)
Definition after_read (cfg : settings.t) (bus : SMBus.t) (rest : list byte)
  : SMBus.t :=
  {| SMBus.busn := SMBus.busn bus;
     SMBus.wire := rest;
     SMBus.transfers :=
       SMBus.transfers bus ++ [(settings.PH_ADC_I2C_ADDR cfg, 0%Z, 2%nat)] |}.

(** The events of one pulse on the step line, each level held for [d]. *)
Definition pulse_events (step_pin : Z) (d : Q) : list event :=
  [EvOutput step_pin true; EvSleep d; EvOutput step_pin false; EvSleep d].

Definition pulse_train (step_pin : Z) (d : Q) (n : nat) : list event :=
  List.concat (repeat (pulse_events step_pin d) n).

Definition is_step_high (step_pin : Z) (e : event) : bool :=
  match e with
  | EvOutput c true => (c =? step_pin)%Z
  | _ => false
  end.

(** How many times a trace sets the step line high. *)
Definition pulses (step_pin : Z) (tr : list event) : nat :=
  List.length (filter (is_step_high step_pin) tr).

(** The driver is asleep and the step line is low. *)
Definition idle (cfg : settings.t) (b : board) : Prop :=
  level b (settings.PUMP_GPIO_SLEEP cfg) = false
  /\ level b (settings.PUMP_GPIO_STEP cfg) = false.

Definition board0 : board := {| level := fun _ => false; trace := [] |}.


(** ** [class PHInterface] *)

Module PHInterface.

Record t : Type := {
  adc : SMBus.t;
  calibration : PHCalibration.t
}.

Section Methods.

Variable cfg : settings.t.
Variable sqrt : Q -> Q.

(** The ADC is opened first, then the calibration is parsed. *)
Definition __init__ (device : list byte) : result t :=
  let adc := ADCInterface.__init__ cfg device in
  let? calibration := PHCalibration.__init__ cfg in
  Ok {| adc := adc; calibration := calibration |}.

(** A method of [self.adc], run on the bus the interface holds. *)
Definition on_adc {A} (m : M SMBus.t A) : M t A :=
  fun self =>
    let (bus, r) := m (adc self) in
    ({| adc := bus; calibration := calibration self |}, r).

(** [self.calibration.compute_ph(temp, v)] *)
Definition calibration_compute_ph (temp v : Q) : M t Q :=
  fun self => (self, PHCalibration.compute_ph (calibration self) temp v).

Definition get_ph (temp : Q) : M t Q :=
  voltage <- on_adc (ADCInterface.get_voltage cfg) ;;
  calibration_compute_ph temp voltage.

Definition get_ph_with_stat (temp : Q) : M t ADCInterface.dict :=
  data <- on_adc (ADCInterface.get_voltage_with_stat cfg sqrt) ;;
  voltage <- lift (ADCInterface.dict_getitem data "voltage") ;;
  ph <- calibration_compute_ph temp voltage ;;
  let data := ADCInterface.dict_set data "ph" ph in
  voltage_dev <- lift (ADCInterface.dict_getitem data "voltage_dev") ;;
  i <- lift (PHTheory.ideal_slope temp) ;;
  ph_dev <- lift (py_div voltage_dev i) ;;
  ret (ADCInterface.dict_set data "ph_dev" ph_dev).

End Methods.

End PHInterface.

(** ** More observations *)

(** The bytes a device sends for a list of two-byte samples, and the
    reading each sample stands for. *)
Definition device_of (samples : list (byte * byte)) : list byte :=
  flat_map (fun s => [fst s; snd s]) samples.

Definition reading_of (s : byte * byte) : Z :=
  (256 * SMBus.byte_value (fst s) + SMBus.byte_value (snd s))%Z.

(** The time a trace spends in [time.sleep]. *)
Fixpoint duration (tr : list event) : Q :=
  match tr with
  | [] => 0
  | EvSleep d :: tr' => d + duration tr'
  | _ :: tr' => duration tr'
  end.



(** An electrode that follows [V = Voffset - slope * ideal * (pH - 7)]
    in a buffer of a given pH, [ideal] being the ideal slope at the
    temperature of the measurement. *)
Definition electrode_voltage (v_offset slope ideal ph : Q) : Q :=
  v_offset - slope * ideal * (ph - 7).

(** * Properties *)

(** ** Comparisons and division *)

Lemma Qltb_lt (a b : Q) : Qltb a b = true <-> a < b.
Proof.
  unfold Qltb. rewrite negb_true_iff.
  split; intro H.
  - apply Qnot_le_lt. intro Hle. apply Qle_bool_iff in Hle. congruence.
  - destruct (Qle_bool b a) eqn:E; [|reflexivity].
    apply Qle_bool_iff in E. exfalso. apply (Qlt_not_le _ _ H E).
Qed.

Lemma Qltb_ge (a b : Q) : Qltb a b = false <-> b <= a.
Proof.
  unfold Qltb. rewrite negb_false_iff. apply Qle_bool_iff.
Qed.

Lemma py_div_ok (a b : Q) : ~ b == 0 -> py_div a b = Ok (a / b).
Proof.
  intro H. unfold py_div.
  destruct (Qeq_bool b 0) eqn:E; [|reflexivity].
  apply Qeq_bool_iff in E. contradiction.
Qed.

Lemma py_div_zero (a b : Q) : b == 0 -> py_div a b = Raise ZeroDivisionError.
Proof.
  intro H. unfold py_div. apply Qeq_bool_iff in H. now rewrite H.
Qed.

Lemma py_div_inv (a b q : Q) : py_div a b = Ok q -> ~ b == 0 /\ q = a / b.
Proof.
  unfold py_div. destruct (Qeq_bool b 0) eqn:E; [discriminate|].
  intro H. injection H as <-. split; [|reflexivity].
  intro Hb. apply Qeq_bool_iff in Hb. congruence.
Qed.

(** ** The ideal electrode *)

Lemma nernst_linear (temp : Q) :
  nernst temp == (8.3144 * 2.3026 / 96485) * (temp + 273.15).
Proof.
  unfold nernst, PHTheory.gas_const, PHTheory.abs_zero_temp,
    PHTheory.ln_10, PHTheory.faraday_const.
  field.
Qed.

Lemma nernst_factor_pos : 0 < 8.3144 * 2.3026 / 96485.
Proof. reflexivity. Qed.

Lemma nernst_pos (temp : Q) : 0 <= temp -> 0 < nernst temp.
Proof.
  intro H. rewrite nernst_linear.
  apply Qmult_lt_0_compat; [exact nernst_factor_pos | lra].
Qed.

Lemma nernst_increasing (t1 t2 : Q) : t1 < t2 -> nernst t1 < nernst t2.
Proof.
  intro H. rewrite !nernst_linear.
  apply Qmult_lt_l; [exact nernst_factor_pos | lra].
Qed.

Lemma ideal_slope_in_range (temp : Q) :
  0 <= temp -> temp <= 100 -> PHTheory.ideal_slope temp = Ok (nernst temp).
Proof.
  intros H0 H100. unfold PHTheory.ideal_slope.
  apply Qltb_ge in H0. apply Qltb_ge in H100.
  rewrite H0, H100. reflexivity.
Qed.

Lemma ideal_slope_out_of_range (temp : Q) :
  temp < 0 \/ 100 < temp ->
  PHTheory.ideal_slope temp = Raise PHTheory.temperature_out_of_range.
Proof.
  intros [H | H]; apply Qltb_lt in H; unfold PHTheory.ideal_slope; rewrite H.
  - reflexivity.
  - now rewrite orb_true_r.
Qed.

Lemma ideal_slope_inv (temp i : Q) :
  PHTheory.ideal_slope temp = Ok i ->
  0 <= temp /\ temp <= 100 /\ i = nernst temp.
Proof.
  unfold PHTheory.ideal_slope.
  destruct (Qltb temp 0) eqn:E0; [discriminate|].
  destruct (Qltb 100 temp) eqn:E1; [discriminate|].
  cbn [orb]. intro H. injection H as <-.
  apply Qltb_ge in E0. apply Qltb_ge in E1. now repeat split.
Qed.

(** C4.  [ideal_slope] raises its temperature exception exactly when
    [temp < 0] or [temp > 100]; the ends 0 and 100 of the interval return a
    value and -0.001 and 100.001 raise; inside the interval the result is
    [R * (temp - absolute_zero) * ln10 / F] with the constants of the
    source, and that result is strictly increasing in [temp]. *)
Theorem ideal_slope_spec :
  (forall temp,
      PHTheory.ideal_slope temp = Raise PHTheory.temperature_out_of_range
      <-> temp < 0 \/ 100 < temp)
  /\ (forall temp, is_ok (PHTheory.ideal_slope temp) = false
                   <-> temp < 0 \/ 100 < temp)
  /\ is_ok (PHTheory.ideal_slope 0) = true
  /\ is_ok (PHTheory.ideal_slope 100) = true
  /\ is_ok (PHTheory.ideal_slope (-0.001)) = false
  /\ is_ok (PHTheory.ideal_slope 100.001) = false
  /\ (forall temp, 0 <= temp -> temp <= 100 ->
        PHTheory.ideal_slope temp
        = Ok (8.3144 * (temp - (-273.15)) * 2.3026 / 96485))
  /\ (forall t1 t2 i1 i2,
        PHTheory.ideal_slope t1 = Ok i1 ->
        PHTheory.ideal_slope t2 = Ok i2 ->
        t1 < t2 -> i1 < i2).
Proof.
  assert (Hfail : forall temp,
             is_ok (PHTheory.ideal_slope temp) = false
             <-> temp < 0 \/ 100 < temp).
  { intro temp. split.
    - intro H.
      destruct (Qlt_le_dec temp 0) as [|H0]; [now left|].
      destruct (Qlt_le_dec 100 temp) as [|H1]; [now right|].
      rewrite (ideal_slope_in_range temp H0 H1) in H. discriminate.
    - intro H. now rewrite (ideal_slope_out_of_range temp H). }
  repeat split; try reflexivity.
  - intro H. apply Hfail. now rewrite H.
  - apply ideal_slope_out_of_range.
  - apply Hfail.
  - apply Hfail.
  - intros temp H0 H1. exact (ideal_slope_in_range temp H0 H1).
  - intros t1 t2 i1 i2 H1 H2 Hlt.
    apply ideal_slope_inv in H1 as (_ & _ & ->).
    apply ideal_slope_inv in H2 as (_ & _ & ->).
    now apply nernst_increasing.
Qed.

(** The increasing part of C4 at 20 and 25 degrees. *)
Lemma ideal_slope_spec_witness :
  exists i1 i2,
    PHTheory.ideal_slope 20 = Ok i1 /\ PHTheory.ideal_slope 25 = Ok i2
    /\ i1 < i2.
Proof.
  exists (nernst 20), (nernst 25).
  split; [reflexivity|]. split; [reflexivity|].
  apply (proj2 (proj2 (proj2 (proj2 (proj2 (proj2 (proj2 ideal_slope_spec)))))) 20 25);
    reflexivity.
Defined.

(** C3.  Round trip: for a temperature in [0, 100], a nonzero slope, any
    voltage and any pH [m], [compute_offset] returns an offset from which
    [compute_ph] at the same temperature, slope and voltage returns [m]. *)
Theorem compute_ph_compute_offset (temp slope v m : Q) :
  0 <= temp -> temp <= 100 -> ~ slope == 0 ->
  exists offset r,
    PHTheory.compute_offset temp slope m v = Ok offset
    /\ PHTheory.compute_ph temp offset slope v = Ok r
    /\ r == m.
Proof.
  intros H0 H1 Hs.
  pose proof (nernst_pos temp H0) as Hi.
  assert (Hd : ~ slope * nernst temp == 0).
  { intro H. apply Qmult_integral in H as [H | H]; [contradiction | lra]. }
  unfold PHTheory.compute_offset, PHTheory.compute_ph.
  rewrite (ideal_slope_in_range temp H0 H1). cbn [bind_result].
  eexists. eexists. split; [reflexivity|].
  rewrite (py_div_ok _ _ Hd). cbn [bind_result].
  split; [reflexivity|].
  field. split; [lra | exact Hs].
Qed.

Lemma compute_ph_compute_offset_witness :
  exists offset r,
    PHTheory.compute_offset 25 1 4 (177 # 1000) = Ok offset
    /\ PHTheory.compute_ph 25 offset 1 (177 # 1000) = Ok r
    /\ r == 4.
Proof.
  apply (compute_ph_compute_offset 25 1 (177 # 1000) 4);
    [discriminate | discriminate | discriminate].
Defined.

(** ** Calibration *)

Section Calibration.

Variable cfg : settings.t.
Variables point1 point2 : settings.point.
Hypothesis two_points :
  settings.points (settings.PH_CALIBRATION cfg) = [point1; point2].

Let temp := settings.temperature (settings.PH_CALIBRATION cfg).
Let v_off := settings.PH_ADC_V_OFFSET cfg.

Lemma init_equal_ph_raises :
  settings.ph point1 == settings.ph point2 ->
  PHCalibration.__init__ cfg = Raise ZeroDivisionError.
Proof.
  intro H. unfold PHCalibration.__init__, PHTheory.compute_slope.
  rewrite two_points.
  rewrite py_div_zero; [reflexivity|]. rewrite H. ring.
Qed.

Lemma init_ok_inv (cal : PHCalibration.t) :
  PHCalibration.__init__ cfg = Ok cal ->
  Qabs (PHCalibration.slope cal - 1) <= PHCalibration.max_slope_drift
  /\ Qabs (PHCalibration.offset cal - v_off)
     <= PHCalibration.max_v_ph7_drift.
Proof.
  unfold PHCalibration.__init__. rewrite two_points.
  destruct (PHTheory.compute_slope _ _ _ _ _) as [s|]; [|discriminate].
  cbn [bind_result].
  destruct (PHTheory.compute_offset _ _ _ _) as [o|]; [|discriminate].
  cbn [bind_result]. fold v_off.
  destruct (Qltb _ (Qabs (s - 1))) eqn:Es; [discriminate|].
  destruct (Qltb _ (Qabs (o - v_off))) eqn:Eo; [discriminate|].
  intro H. injection H as <-. cbn.
  apply Qltb_ge in Es. apply Qltb_ge in Eo. now split.
Qed.

End Calibration.

Lemma init_ok_two_points (cfg : settings.t) (cal : PHCalibration.t) :
  PHCalibration.__init__ cfg = Ok cal ->
  exists point1 point2,
    settings.points (settings.PH_CALIBRATION cfg) = [point1; point2].
Proof.
  unfold PHCalibration.__init__.
  destruct (settings.points _) as [|p1 [|p2 [|p3 l]]]; try discriminate.
  intros _. now exists p1, p2.
Qed.

(** [Double.__init__] once the slope and the offset are known. *)
Lemma init_double_after_fit
    (cfg : settings.t) (point1 point2 : settings.point) (s o : Q) :
  settings.points (settings.PH_CALIBRATION cfg) = [point1; point2] ->
  Double.compute_slope (settings.temperature (settings.PH_CALIBRATION cfg))
    (settings.ph point1) (settings.voltage point1)
    (settings.ph point2) (settings.voltage point2) = Ok s ->
  Double.compute_offset (settings.temperature (settings.PH_CALIBRATION cfg))
    s (settings.ph point1) (settings.voltage point1) = Ok o ->
  Double.__init__ cfg =
    if Qltb (fl 0.2) (Qabs (fl (s - 1)))
    then Raise (Double.slope_out_of_range s)
    else if Qltb (fl 0.030)
              (Qabs (fl (o - settings.PH_ADC_V_OFFSET cfg)))
         then Raise (Double.offset_out_of_range
                       (fl (o - settings.PH_ADC_V_OFFSET cfg)))
         else Ok {| PHCalibration.slope := s; PHCalibration.offset := o |}.
Proof.
  intros Hpts Hs Ho. unfold Double.__init__.
  rewrite Hpts, Hs. cbn [bind_result]. rewrite Ho. reflexivity.
Qed.

(** C2, as the code has it.  Take two calibration points and a reference
    temperature in [0, 100], and let [s] and [o] be the slope and the
    offset the constructor computes, in doubles; they exist unless a
    division fails (equal pH values, see C9).  Construction fails exactly
    when [|s - 1| > 0.2] or [|o - PH_ADC_V_OFFSET| > 0.030], the two
    differences and the two bounds being the doubles the code compares,
    and both comparisons strict: a drift equal to the bound is accepted.
    The slope check comes first and each check raises its own exception;
    on success the object holds [s] and [o] unchanged. *)
Theorem calibration_init_double_spec
    (cfg : settings.t) (point1 point2 : settings.point) (s o : Q) :
  settings.points (settings.PH_CALIBRATION cfg) = [point1; point2] ->
  0 <= settings.temperature (settings.PH_CALIBRATION cfg) ->
  settings.temperature (settings.PH_CALIBRATION cfg) <= 100 ->
  Double.compute_slope (settings.temperature (settings.PH_CALIBRATION cfg))
    (settings.ph point1) (settings.voltage point1)
    (settings.ph point2) (settings.voltage point2) = Ok s ->
  Double.compute_offset (settings.temperature (settings.PH_CALIBRATION cfg))
    s (settings.ph point1) (settings.voltage point1) = Ok o ->
  (is_ok (Double.__init__ cfg) = false
   <-> fl 0.2 < Qabs (fl (s - 1))
       \/ fl 0.030 < Qabs (fl (o - settings.PH_ADC_V_OFFSET cfg)))
  /\ (fl 0.2 < Qabs (fl (s - 1)) ->
      Double.__init__ cfg = Raise (Double.slope_out_of_range s))
  /\ (Qabs (fl (s - 1)) <= fl 0.2 ->
      fl 0.030 < Qabs (fl (o - settings.PH_ADC_V_OFFSET cfg)) ->
      Double.__init__ cfg
      = Raise (Double.offset_out_of_range
                 (fl (o - settings.PH_ADC_V_OFFSET cfg))))
  /\ (Qabs (fl (s - 1)) <= fl 0.2 ->
      Qabs (fl (o - settings.PH_ADC_V_OFFSET cfg)) <= fl 0.030 ->
      Double.__init__ cfg
      = Ok {| PHCalibration.slope := s; PHCalibration.offset := o |}).
Proof.
  intros Hpts _ _ Hs Ho.
  rewrite (init_double_after_fit cfg point1 point2 s o Hpts Hs Ho).
  set (ds := Qabs (fl (s - 1))).
  set (do := Qabs (fl (o - settings.PH_ADC_V_OFFSET cfg))).
  set (bs := fl 0.2). set (bo := fl 0.030).
  destruct (Qltb bs ds) eqn:Es;
    [apply Qltb_lt in Es | apply Qltb_ge in Es].
  - cbn [is_ok]. split; [|split; [|split]].
    + split; [intros _; left; exact Es | intros _; exact eq_refl].
    + intros _. exact eq_refl.
    + intros H. exfalso. exact (Qlt_not_le _ _ Es H).
    + intros H. exfalso. exact (Qlt_not_le _ _ Es H).
  - destruct (Qltb bo do) eqn:Eo;
      [apply Qltb_lt in Eo | apply Qltb_ge in Eo];
      cbn [is_ok]; (split; [|split; [|split]]).
    + split; [intros _; right; exact Eo | intros _; exact eq_refl].
    + intros H. exfalso. exact (Qlt_not_le _ _ H Es).
    + intros _ _. exact eq_refl.
    + intros _ H. exfalso. exact (Qlt_not_le _ _ Eo H).
    + split; [intro H; discriminate H|].
      intros [H | H]; exfalso;
        [exact (Qlt_not_le _ _ H Es) | exact (Qlt_not_le _ _ H Eo)].
    + intros H. exfalso. exact (Qlt_not_le _ _ H Es).
    + intros _ H. exfalso. exact (Qlt_not_le _ _ H Eo).
    + intros _ _. exact eq_refl.
Qed.

(** The calibration of [settings.py] is accepted: its slope computes to
    about 1.107 and its pH 7 voltage lies 27 mV below the ADC offset. *)
Lemma calibration_init_double_spec_witness :
  exists s o,
    1.107 < s /\ s < 1.108
    /\ -0.028 < o - fl 1.251 /\ o - fl 1.251 < -0.026
    /\ Double.__init__ settings_py
       = Ok {| PHCalibration.slope := s; PHCalibration.offset := o |}.
Proof.
  destruct (Double.compute_slope (fl 21.2)
              (fl 4.0) (fl 1.418) (fl 7.0) (fl 1.224)) as [s|] eqn:Es;
    [|vm_compute in Es; discriminate].
  destruct (Double.compute_offset (fl 21.2) s (fl 4.0) (fl 1.418))
    as [o|] eqn:Eo.
  2:{ exfalso. vm_compute in Es. injection Es as <-.
      vm_compute in Eo. discriminate. }
  exists s, o.
  assert (Hrun : Double.__init__ settings_py
                 = Ok {| PHCalibration.slope := s;
                         PHCalibration.offset := o |}).
  { apply (calibration_init_double_spec settings_py
             {| settings.ph := fl 4.0; settings.voltage := fl 1.418 |}
             {| settings.ph := fl 7.0; settings.voltage := fl 1.224 |}
             s o eq_refl).
    - vm_compute. discriminate.
    - vm_compute. discriminate.
    - exact Es.
    - exact Eo.
    - vm_compute in Es. injection Es as <-. vm_compute. discriminate.
    - vm_compute in Es. injection Es as <-.
      vm_compute in Eo. injection Eo as <-. vm_compute. discriminate. }
  vm_compute in Es. injection Es as <-.
  vm_compute in Eo. injection Eo as <-.
  split; [vm_compute; reflexivity|]. split; [vm_compute; reflexivity|].
  split; [vm_compute; reflexivity|]. split; [vm_compute; reflexivity|].
  exact Hrun.
Defined.

(** C2 as stated fails: with two buffers of the same pH and a reference
    temperature of 25 the constructor fails, but not on a drift: there is
    no slope to compare, the failure is the division by zero. *)
Lemma calibration_init_fails_without_drift :
  is_ok (Double.__init__ (two_points 25 7 1.224 7 1.230 1.251)) = false
  /\ Double.__init__ (two_points 25 7 1.224 7 1.230 1.251)
     = Raise ZeroDivisionError
  /\ ~ (exists s,
          Double.compute_slope (fl 25)
            (fl 7) (fl 1.224) (fl 7) (fl 1.230) = Ok s
          /\ fl 0.2 < Qabs (fl (s - 1))).
Proof.
  split; [vm_compute; reflexivity|]. split; [vm_compute; reflexivity|].
  intros (s & Hs & _). vm_compute in Hs. discriminate.
Qed.

(** The checks on electrodes measured in doubles at 25 degrees; the
    arguments of [electrode_double] are the nominal relative slope and the
    nominal drift of the pH 7 voltage.  Away from the bounds the nominal
    value decides.  At the bounds the rounding of the computed slope and
    offset decides: a nominal slope of 1.20 computes to the next double
    above 1.2 and is refused, a nominal drift of 0.030 computes to a double
    above 0.03 (1.281 - 1.251 in doubles) and is refused. *)
Example calibration_double_checks :
  is_ok (Double.__init__ (electrode_double 1.19 0)) = true
  /\ is_ok (Double.__init__ (electrode_double 0.81 0)) = true
  /\ is_ok (Double.__init__ (electrode_double 1 0.029)) = true
  /\ is_ok (Double.__init__ (electrode_double 1 (-0.029))) = true
  /\ is_ok (Double.__init__ (electrode_double 1.2001 0)) = false
  /\ is_ok (Double.__init__ (electrode_double 1.25 0)) = false
  /\ is_ok (Double.__init__ (electrode_double 0.75 0)) = false
  /\ is_ok (Double.__init__ (electrode_double 1 0.031)) = false
  /\ is_ok (Double.__init__ (electrode_double 1 (-0.031))) = false
  /\ Double.__init__ (electrode_double 1.20 0)
     = Raise (Double.slope_out_of_range (Qred (fl 1.2 + pow2 (-52))))
  /\ Double.__init__ (electrode_double 1 0.030)
     = Raise (Double.offset_out_of_range (Qred (fl 0.030 + pow2 (-55)))).
Proof.
  repeat (split; [vm_compute; reflexivity|]).
  vm_compute; reflexivity.
Qed.

(** C9.  When the two calibration points have the same pH, the quotient
    in [compute_slope] has a zero divisor and the constructor raises
    [ZeroDivisionError], whatever the voltages, the reference temperature
    and the ADC offset are; this is none of the constructor's own
    exceptions. *)
Theorem calibration_init_equal_ph
    (cfg : settings.t) (point1 point2 : settings.point) :
  settings.points (settings.PH_CALIBRATION cfg) = [point1; point2] ->
  settings.ph point1 == settings.ph point2 ->
  PHCalibration.__init__ cfg = Raise ZeroDivisionError
  /\ (forall fmt args,
         PHCalibration.__init__ cfg <> Raise (Exception fmt args)).
Proof.
  intros Hpts Hph.
  rewrite (init_equal_ph_raises cfg point1 point2 Hpts Hph).
  split; [reflexivity | discriminate].
Qed.

(** The equal-pH case is reached with a reference temperature of 25. *)
Lemma calibration_init_equal_ph_witness :
  0 <= settings.temperature (settings.PH_CALIBRATION same_buffer_twice)
  /\ settings.temperature (settings.PH_CALIBRATION same_buffer_twice) <= 100
  /\ PHCalibration.__init__ same_buffer_twice = Raise ZeroDivisionError.
Proof.
  split; [discriminate|]. split; [discriminate|].
  apply (calibration_init_equal_ph same_buffer_twice _ _ eq_refl).
  reflexivity.
Defined.

(** C10.  A calibration that was constructed has its slope in
    [0.8, 1.2], so not zero; [ideal_slope] is positive on [0, 100]; hence
    for every such temperature and every voltage [compute_ph] divides by a
    nonzero number and returns
    [7 + (offset - v) / (slope * ideal_slope temp)]. *)
Theorem calibration_compute_ph_defined
    (cfg : settings.t) (cal : PHCalibration.t) :
  PHCalibration.__init__ cfg = Ok cal ->
  0.8 <= PHCalibration.slope cal
  /\ PHCalibration.slope cal <= 1.2
  /\ ~ PHCalibration.slope cal == 0
  /\ forall temp v, 0 <= temp -> temp <= 100 ->
       exists i,
         PHTheory.ideal_slope temp = Ok i
         /\ 0 < i
         /\ ~ PHCalibration.slope cal * i == 0
         /\ PHCalibration.compute_ph cal temp v
            = Ok (7 + (PHCalibration.offset cal - v)
                      / (PHCalibration.slope cal * i)).
Proof.
  intro Hinit.
  destruct (init_ok_two_points cfg cal Hinit) as (p1 & p2 & Hpts).
  destruct (init_ok_inv cfg p1 p2 Hpts cal Hinit) as [Hs _].
  change PHCalibration.max_slope_drift with 0.2 in Hs.
  apply Qabs_Qle_condition in Hs. destruct Hs as [Hlo Hhi].
  assert (H08 : 0.8 <= PHCalibration.slope cal) by lra.
  assert (H12 : PHCalibration.slope cal <= 1.2) by lra.
  repeat split; try assumption.
  - intro H0. lra.
  - intros temp v Ht0 Ht1. exists (nernst temp).
    pose proof (nernst_pos temp Ht0) as Hi.
    assert (Hd : ~ PHCalibration.slope cal * nernst temp == 0).
    { intro H. apply Qmult_integral in H as [H | H]; lra. }
    repeat split; try assumption.
    + exact (ideal_slope_in_range temp Ht0 Ht1).
    + unfold PHCalibration.compute_ph, PHTheory.compute_ph.
      rewrite (ideal_slope_in_range temp Ht0 Ht1). cbn [bind_result].
      rewrite (py_div_ok _ _ Hd). reflexivity.
Qed.

Lemma calibration_compute_ph_defined_witness :
  exists cal,
    PHCalibration.__init__ (electrode 1 0) = Ok cal
    /\ is_ok (PHCalibration.compute_ph cal 25 1.3) = true.
Proof.
  destruct (PHCalibration.__init__ (electrode 1 0)) as [cal|e] eqn:E.
  - exists cal. split; [reflexivity|].
    destruct (proj2 (proj2 (proj2
      (calibration_compute_ph_defined (electrode 1 0) cal E))) 25 1.3)
      as (i & _ & _ & _ & H); [discriminate | discriminate |].
    rewrite H. reflexivity.
  - vm_compute in E. discriminate.
Defined.

(** ** Sampling *)

Section Sampling.

Variable cfg : settings.t.

Let addr := settings.PH_ADC_I2C_ADDR cfg.

Lemma get_value_two_bytes (bus : SMBus.t) (b0 b1 : byte) (rest : list byte) :
  SMBus.wire bus = b0 :: b1 :: rest ->
  ADCInterface._get_value cfg bus
  = (after_read cfg bus rest,
     Ok (Z.shiftl (SMBus.byte_value b0) 8 + SMBus.byte_value b1)%Z).
Proof.
  intro H.
  unfold ADCInterface._get_value, bind, SMBus.read_i2c_block_data.
  rewrite H. reflexivity.
Qed.

Lemma get_value_inv (bus bus' : SMBus.t) (v : Z) :
  ADCInterface._get_value cfg bus = (bus', Ok v) ->
  exists b0 b1 rest,
    SMBus.wire bus = b0 :: b1 :: rest /\ bus' = after_read cfg bus rest
    /\ v = (Z.shiftl (SMBus.byte_value b0) 8 + SMBus.byte_value b1)%Z.
Proof.
  destruct (SMBus.wire bus) as [|b0 [|b1 rest]] eqn:E.
  - unfold ADCInterface._get_value, bind, SMBus.read_i2c_block_data.
    rewrite E. discriminate.
  - unfold ADCInterface._get_value, bind, SMBus.read_i2c_block_data.
    rewrite E. discriminate.
  - rewrite (get_value_two_bytes bus b0 b1 rest E).
    intro H. injection H as <- <-. now exists b0, b1, rest.
Qed.

Lemma get_values_from_inv (n : nat) :
  forall (acc : list Z) (bus bus' : SMBus.t) (values : list Z),
    ADCInterface._get_values_from cfg n acc bus = (bus', Ok values) ->
    exists vs,
      values = acc ++ vs /\ List.length vs = n
      /\ List.length (SMBus.wire bus)
         = (2 * n + List.length (SMBus.wire bus'))%nat
      /\ SMBus.transfers bus'
         = SMBus.transfers bus ++ repeat (addr, 0%Z, 2%nat) n.
Proof.
  induction n as [|n IH]; intros acc bus bus' values H.
  - cbn in H. injection H as <- <-. exists [].
    rewrite !app_nil_r. now repeat split.
  - cbn [ADCInterface._get_values_from] in H. unfold bind in H.
    destruct (ADCInterface._get_value cfg bus) as [bus1 [v|e]] eqn:E;
      [|discriminate].
    apply get_value_inv in E as (b0 & b1 & rest & Hw & -> & _).
    apply IH in H as (vs & -> & Hlen & Hwire & Htr).
    exists (v :: vs). rewrite <- app_assoc. cbn [app].
    repeat split.
    + cbn. now rewrite Hlen.
    + rewrite Hw. cbn [List.length]. cbn in Hwire. lia.
    + rewrite Htr. cbn. now rewrite <- app_assoc.
Qed.

Lemma get_values_from_constant (b0 b1 : byte) (n : nat) :
  forall (acc : list Z) (bus : SMBus.t) (rest : list byte),
    SMBus.wire bus = constant_device b0 b1 n ++ rest ->
    exists bus',
      ADCInterface._get_values_from cfg n acc bus
      = (bus',
         Ok (acc ++ repeat
               (Z.shiftl (SMBus.byte_value b0) 8 + SMBus.byte_value b1)%Z n))
      /\ SMBus.wire bus' = rest.
Proof.
  induction n as [|n IH]; intros acc bus rest H.
  - exists bus. cbn. rewrite app_nil_r. now split.
  - cbn [ADCInterface._get_values_from]. unfold bind.
    rewrite (get_value_two_bytes bus b0 b1
               (constant_device b0 b1 n ++ rest) H).
    destruct (IH (acc ++ [(Z.shiftl (SMBus.byte_value b0) 8
                           + SMBus.byte_value b1)%Z])
                (after_read cfg bus (constant_device b0 b1 n ++ rest))
                rest eq_refl) as (bus' & Hrun & Hw).
    exists bus'. rewrite Hrun. rewrite <- app_assoc. now split.
Qed.

End Sampling.

Lemma byte_value_range (b : byte) : (0 <= SMBus.byte_value b < 256)%Z.
Proof.
  unfold SMBus.byte_value. pose proof (Byte.to_N_bounded b). lia.
Qed.

(** C7, as the code has it.  [_get_value] makes one block read of exactly
    two bytes at register 0 of the ADC and returns
    [(byte0 << 8) + byte1 = 256 * byte0 + byte1].  Nothing masks the first
    byte: the result is below 65536 for every pair of bytes, and it is a
    12-bit value (below 4096) exactly when the upper four bits of the first
    byte are zero, that is when [byte0 < 16]. *)
Theorem get_value_big_endian
    (cfg : settings.t) (bus : SMBus.t) (b0 b1 : byte) (rest : list byte) :
  SMBus.wire bus = b0 :: b1 :: rest ->
  exists bus' v,
    ADCInterface._get_value cfg bus = (bus', Ok v)
    /\ SMBus.wire bus' = rest
    /\ SMBus.transfers bus'
       = SMBus.transfers bus ++ [(settings.PH_ADC_I2C_ADDR cfg, 0%Z, 2%nat)]
    /\ v = (Z.shiftl (SMBus.byte_value b0) 8 + SMBus.byte_value b1)%Z
    /\ v = (256 * SMBus.byte_value b0 + SMBus.byte_value b1)%Z
    /\ (0 <= v < 65536)%Z
    /\ ((v < 4096)%Z <-> (SMBus.byte_value b0 < 16)%Z).
Proof.
  intro H. eexists. eexists.
  split; [exact (get_value_two_bytes cfg bus b0 b1 rest H)|].
  pose proof (byte_value_range b0). pose proof (byte_value_range b1).
  rewrite Z.shiftl_mul_pow2 by lia. change (2 ^ 8)%Z with 256%Z.
  repeat split; try reflexivity; lia.
Qed.

Lemma get_value_big_endian_witness :
  exists bus' v,
    ADCInterface._get_value (electrode 1 0)
      (ADCInterface.__init__ (electrode 1 0) [x08; x00; xff]) = (bus', Ok v)
    /\ SMBus.wire bus' = [xff]
    /\ v = 2048%Z.
Proof.
  destruct (get_value_big_endian (electrode 1 0)
              (ADCInterface.__init__ (electrode 1 0) [x08; x00; xff])
              x08 x00 [xff] eq_refl)
    as (bus' & v & Hrun & Hw & _ & Hv & _).
  exists bus', v. repeat split; assumption.
Defined.

(** C7 as stated fails: the bytes [0x10, 0x00] compose to 4096, which is
    not a 12-bit value. *)
Lemma get_value_not_12_bit :
  snd (ADCInterface._get_value (electrode 1 0)
         (ADCInterface.__init__ (electrode 1 0) [x10; x00])) = Ok 4096%Z
  /\ ~ (4096 < 4096)%Z.
Proof. split; [reflexivity | lia]. Qed.

Lemma mean_constant_2048 :
  exists m, statistics.mean (repeat 2048%Z 256) = Ok m /\ m == 2048.
Proof. eexists. split; vm_compute; reflexivity. Qed.

Lemma pvariance_constant_2048 :
  exists var, statistics.pvariance (repeat 2048%Z 256) = Ok var /\ var == 0.
Proof. eexists. split; vm_compute; reflexivity. Qed.

Lemma value_to_voltage_zero (cfg : settings.t) (q : Q) :
  q == 0 -> ADCInterface.value_to_voltage cfg q == 0.
Proof.
  intro H. unfold ADCInterface.value_to_voltage. rewrite H.
  unfold Qdiv. ring.
Qed.

Lemma value_to_voltage_eq (cfg : settings.t) (p q : Q) :
  p == q ->
  ADCInterface.value_to_voltage cfg p == ADCInterface.value_to_voltage cfg q.
Proof.
  intro H. unfold ADCInterface.value_to_voltage. now rewrite H.
Qed.

(** What a successful [get_voltage_with_stat] did: one full batch was
    read, and the four entries come from its mean and deviation. *)
Lemma get_voltage_with_stat_inv
    (cfg : settings.t) (sqrt : Q -> Q) (bus bus' : SMBus.t)
    (data : ADCInterface.dict) :
  ADCInterface.get_voltage_with_stat cfg sqrt bus = (bus', Ok data) ->
  exists values m d,
    ADCInterface._get_values cfg bus = (bus', Ok values)
    /\ statistics.mean values = Ok m
    /\ statistics.pstdev sqrt values = Ok d
    /\ data = [("value"%string, m); ("value_dev"%string, d);
               ("voltage"%string, ADCInterface.value_to_voltage cfg m);
               ("voltage_dev"%string, ADCInterface.value_to_voltage cfg d)].
Proof.
  unfold ADCInterface.get_voltage_with_stat, ADCInterface.get_value_with_stat,
    bind, lift, ret.
  destruct (ADCInterface._get_values cfg bus) as [bus1 [values|e]];
    [|discriminate].
  destruct (statistics.mean values) as [m|e] eqn:Em; [|discriminate].
  destruct (statistics.pstdev sqrt values) as [d|e] eqn:Ed; [|discriminate].
  cbn. intro H. injection H as <- <-.
  now exists values, m, d.
Qed.

(** C8.  On a device that answers 256 reads with 2048 (bytes 0x08, 0x00),
    [get_voltage_with_stat] returns a mean of 2048 and a deviation of 0,
    a voltage of [value_to_voltage 2048 = 2048 * PH_ADC_V_REF / 4096] and
    a voltage deviation of 0, for any square root that is 0 at 0.  And
    whenever [get_voltage_with_stat] returns, its figures come from one
    batch of exactly [filter_samples = 256] readings, each a two-byte
    read: 512 bytes were taken from the device. *)
Theorem statistics_constant_batch
    (cfg : settings.t) (sqrt : Q -> Q) (bus : SMBus.t) (rest : list byte) :
  (forall q, q == 0 -> sqrt q == 0) ->
  SMBus.wire bus = constant_device x08 x00 256 ++ rest ->
  (exists bus' data value value_dev voltage voltage_dev,
      ADCInterface.get_voltage_with_stat cfg sqrt bus = (bus', Ok data)
      /\ SMBus.wire bus' = rest
      /\ ADCInterface.dict_get data "value" = Some value
      /\ value == 2048
      /\ ADCInterface.dict_get data "value_dev" = Some value_dev
      /\ value_dev == 0
      /\ ADCInterface.dict_get data "voltage" = Some voltage
      /\ voltage == ADCInterface.value_to_voltage cfg 2048
      /\ voltage == 2048 * settings.PH_ADC_V_REF cfg / 4096
      /\ ADCInterface.dict_get data "voltage_dev" = Some voltage_dev
      /\ voltage_dev == 0)
  /\ (forall bus1 bus2 data,
         ADCInterface.get_voltage_with_stat cfg sqrt bus1 = (bus2, Ok data) ->
         exists values m d,
           ADCInterface._get_values cfg bus1 = (bus2, Ok values)
           /\ List.length values = 256%nat
           /\ ADCInterface.filter_samples = 256%nat
           /\ List.length (SMBus.wire bus1)
              = (512 + List.length (SMBus.wire bus2))%nat
           /\ SMBus.transfers bus2
              = SMBus.transfers bus1
                ++ repeat (settings.PH_ADC_I2C_ADDR cfg, 0%Z, 2%nat) 256
           /\ statistics.mean values = Ok m
           /\ statistics.pstdev sqrt values = Ok d
           /\ ADCInterface.dict_get data "value" = Some m
           /\ ADCInterface.dict_get data "value_dev" = Some d
           /\ ADCInterface.dict_get data "voltage"
              = Some (ADCInterface.value_to_voltage cfg m)
           /\ ADCInterface.dict_get data "voltage_dev"
              = Some (ADCInterface.value_to_voltage cfg d)).
Proof.
  intros Hsqrt Hwire. split.
  - destruct (get_values_from_constant cfg x08 x00 256 [] bus rest Hwire)
      as (bus' & Hrun & Hrest).
    change (Z.shiftl (SMBus.byte_value x08) 8 + SMBus.byte_value x00)%Z
      with 2048%Z in Hrun.
    cbn [app] in Hrun.
    destruct mean_constant_2048 as (m & Hm & Hm2048).
    destruct pvariance_constant_2048 as (var & Hvar & Hvar0).
    exists bus',
      [("value"%string, m); ("value_dev"%string, sqrt var);
       ("voltage"%string, ADCInterface.value_to_voltage cfg m);
       ("voltage_dev"%string,
         ADCInterface.value_to_voltage cfg (sqrt var))],
      m, (sqrt var), (ADCInterface.value_to_voltage cfg m),
      (ADCInterface.value_to_voltage cfg (sqrt var)).
    repeat split; try reflexivity; try assumption.
    + unfold ADCInterface.get_voltage_with_stat,
        ADCInterface.get_value_with_stat, ADCInterface._get_values,
        ADCInterface.filter_samples, bind.
      rewrite Hrun. unfold lift, statistics.pstdev.
      rewrite Hm, Hvar. reflexivity.
    + now apply Hsqrt.
    + now apply value_to_voltage_eq.
    + unfold ADCInterface.value_to_voltage. rewrite Hm2048. reflexivity.
    + apply value_to_voltage_zero. now apply Hsqrt.
  - intros bus1 bus2 data H.
    apply get_voltage_with_stat_inv in H as (values & m & d & Hv & Hm & Hd & ->).
    exists values, m, d.
    pose proof Hv as Hv'. unfold ADCInterface._get_values in Hv'.
    apply get_values_from_inv in Hv' as (vs & Hvs & Hlen & Hw & Htr).
    cbn [app] in Hvs. subst vs.
    repeat split; try reflexivity; assumption.
Qed.

(** C8 on a device that holds exactly one constant batch, with the integer
    square root of a fraction for [sqrt] and a reference of 2.5 V: the
    voltage is 1.25 V. *)
Lemma statistics_constant_batch_witness :
  exists bus' data,
    ADCInterface.get_voltage_with_stat (electrode 1 0)
      (fun q => Z.sqrt (Qnum q * Zpos (Qden q)) # Qden q)
      (ADCInterface.__init__ (electrode 1 0) (constant_device x08 x00 256))
    = (bus', Ok data)
    /\ SMBus.wire bus' = []
    /\ exists voltage,
        ADCInterface.dict_get data "voltage" = Some voltage
        /\ voltage == 1.25.
Proof.
  destruct (statistics_constant_batch (electrode 1 0)
              (fun q => Z.sqrt (Qnum q * Zpos (Qden q)) # Qden q)
              (ADCInterface.__init__ (electrode 1 0)
                 (constant_device x08 x00 256)) [])
    as [(bus' & data & value & value_dev & voltage & voltage_dev
         & Hrun & Hrest & _ & _ & _ & _ & Hv & _ & Hv2 & _) _].
  - intros q Hq. unfold Qeq in *. cbn in *.
    rewrite Z.mul_1_r in Hq. rewrite Hq. reflexivity.
  - cbn [ADCInterface.__init__ SMBus.wire]. now rewrite app_nil_r.
  - exists bus', data. repeat split; try assumption.
    exists voltage. split; [assumption|].
    rewrite Hv2. reflexivity.
Defined.

(** ** Rounding against the machine

    [fl] gives what the floating-point unit gives: on the operations
    below, the primitive doubles of the prover, which are the machine's,
    and [fl] applied to the exact result agree. *)

Set Warnings "-inexact-float".

Example fl_agrees_with_the_machine :
  Q_of_float 0.12%float = Some (fl 0.12)
  /\ Q_of_float (0.12 * 1050)%float = Some (fl (fl 0.12 * 1050))
  /\ Q_of_float (0.29 * 100)%float = Some (fl (fl 0.29 * 100))
  /\ Q_of_float (1e-3 * 1050)%float = Some (fl (fl 1e-3 * 1050))
  /\ Q_of_float ((0.02 + 0.12) * 1050)%float
     = Some (fl (fl (fl 0.02 + fl 0.12) * 1050))
  /\ Q_of_float (1.2 - 1)%float = Some (fl (fl 1.2 - 1))
  /\ Q_of_float (1.281 - 1.251)%float = Some (fl (fl 1.281 - fl 1.251))
  /\ Q_of_float (1 / 3)%float = Some (fl (1 / 3))
  /\ Q_of_float (0.1 + 0.2)%float = Some (fl (fl 0.1 + fl 0.2))
  /\ Q_of_float (1e-310 / 3)%float = Some (fl (fl 1e-310 / 3))
  /\ match Q_of_float
            (8.3144 * (25 - -273.15) * 2.3026 / 96485)%float with
     | Some i => Double.ideal_slope 25 = Ok i
     | None => False
     end.
Proof.
  repeat (split; [vm_compute; reflexivity|]).
  vm_compute. reflexivity.
Qed.

(** ** The pump *)

Section Pump.

Variable cfg : settings.t.
Variable self : PumpInterface.t.

Let sleep_pin := settings.PUMP_GPIO_SLEEP cfg.
Let step_pin := settings.PUMP_GPIO_STEP cfg.

Lemma time_sleep_ok (d : Q) (b : board) :
  0 <= d ->
  time_sleep d b
  = ({| level := level b; trace := trace b ++ [EvSleep d] |}, Ok tt).
Proof.
  intro H. unfold time_sleep. apply Qltb_ge in H. now rewrite H.
Qed.

Variable f : Q.
Hypothesis frequency : PumpInterface.max_step_frequency self = Ok f.
Hypothesis frequency_pos : 0 < f.

Lemma half_period_pos : 0 < 0.5 / f.
Proof.
  apply Qlt_shift_div_l; [assumption | lra].
Qed.

Lemma pulse_ok (b : board) :
  exists b',
    PumpInterface.pulse cfg self b = (b', Ok tt)
    /\ trace b' = trace b ++ pulse_events step_pin (0.5 / f)
    /\ forall c, level b' c = if (c =? step_pin)%Z then false else level b c.
Proof.
  pose proof half_period_pos as Hd.
  assert (Hf : ~ f == 0) by lra.
  unfold PumpInterface.pulse, bind, lift.
  cbn [GPIO_output]. rewrite frequency, (py_div_ok _ _ Hf).
  rewrite time_sleep_ok by lra. cbn [level trace].
  rewrite time_sleep_ok by lra. cbn [level trace].
  eexists. split; [reflexivity|]. cbn [level trace]. split.
  - unfold pulse_events. fold step_pin. now rewrite <- !app_assoc.
  - intro c. fold step_pin. now destruct (c =? step_pin)%Z.
Qed.

Lemma for_range_pulse_ok (n : nat) :
  forall b : board,
  exists b',
    for_range n (PumpInterface.pulse cfg self) b = (b', Ok tt)
    /\ trace b' = trace b ++ pulse_train step_pin (0.5 / f) n
    /\ forall c,
        level b' c
        = if ((c =? step_pin)%Z && negb (n =? 0)%nat)%bool
          then false else level b c.
Proof.
  induction n as [|n IH]; intro b.
  - exists b. cbn. rewrite app_nil_r. repeat split.
    intro c. now rewrite andb_false_r.
  - cbn [for_range]. unfold bind.
    destruct (pulse_ok b) as (b1 & Hrun1 & Htr1 & Hlv1).
    rewrite Hrun1.
    destruct (IH b1) as (b2 & Hrun2 & Htr2 & Hlv2).
    exists b2. split; [exact Hrun2|]. split.
    + rewrite Htr2, Htr1. unfold pulse_train. cbn [repeat List.concat].
      now rewrite <- app_assoc.
    + intro c. rewrite Hlv2, Hlv1.
      cbn [Nat.eqb negb]. rewrite andb_true_r.
      destruct (c =? step_pin)%Z; [|reflexivity].
      now destruct (negb (n =? 0)%nat).
Qed.

Hypothesis wake_up_time_nonneg : 0 <= PumpInterface.wake_up_time self.

Lemma step_ok (count : Q) (b : board) :
  exists b',
    PumpInterface.step cfg self count b = (b', Ok tt)
    /\ trace b'
       = trace b
         ++ [EvOutput sleep_pin true;
             EvSleep (PumpInterface.wake_up_time self)]
         ++ pulse_train step_pin (0.5 / f) (Z.to_nat (py_int count))
         ++ [EvOutput sleep_pin false]
    /\ level b' sleep_pin = false.
Proof.
  unfold PumpInterface.step, bind. cbn [GPIO_output].
  rewrite time_sleep_ok by assumption. cbn [level trace].
  match goal with
  | |- context [for_range ?n ?body ?b0] =>
      destruct (for_range_pulse_ok n b0) as (b1 & Hrun & Htr & Hlv)
  end.
  rewrite Hrun. eexists. split; [reflexivity|]. cbn [level trace]. split.
  - rewrite Htr. cbn [trace]. fold sleep_pin.
    rewrite <- !app_assoc. reflexivity.
  - fold sleep_pin. now rewrite Z.eqb_refl.
Qed.

End Pump.

Lemma pulses_app (p : Z) (l1 l2 : list event) :
  pulses p (l1 ++ l2) = (pulses p l1 + pulses p l2)%nat.
Proof.
  unfold pulses. now rewrite filter_app, length_app.
Qed.

Lemma pulses_pulse_train (p : Z) (d : Q) (n : nat) :
  pulses p (pulse_train p d n) = n.
Proof.
  induction n as [|n IH]; [reflexivity|].
  unfold pulse_train in *. cbn [repeat List.concat].
  rewrite pulses_app, IH. unfold pulses, pulse_events. cbn.
  now rewrite Z.eqb_refl.
Qed.

Lemma sleeps_of_pulse_train (p : Z) (d x : Q) (n : nat) :
  In (EvSleep x) (pulse_train p d n) -> x = d.
Proof.
  induction n as [|n IH]; [intros []|].
  unfold pulse_train in *. cbn [repeat List.concat].
  rewrite in_app_iff. intros [H | H]; [|exact (IH H)].
  cbn in H. intuition congruence.
Qed.

Lemma max_step_frequency_inv (self : PumpInterface.t) (f : Q) :
  PumpInterface.max_step_frequency self = Ok f ->
  ~ PumpInterface.step_angle self == 0
  /\ f == PumpInterface.max_rpm self / 60
          * (360 / PumpInterface.step_angle self)
          * PumpInterface.microsteps self.
Proof.
  unfold PumpInterface.max_step_frequency.
  destruct (py_div 360 (PumpInterface.step_angle self)) as [turn|] eqn:E;
    [|discriminate].
  apply py_div_inv in E as [Hnz ->].
  cbn [bind_result]. intro H. injection H as <-.
  split; [assumption | ring].
Qed.

(** C5.  When the step frequency [f] of the pump is defined and positive,
    [f = (max_rpm / 60) * (360 / step_angle) * microsteps], and [step]
    wakes the driver, waits [wake_up_time], emits [int(count)] pulses and
    puts the driver to sleep.  Each pulse is: step line high, hold
    [0.5 / f], step line low, hold [0.5 / f]; every hold between the
    wake-up and the final sleep is exactly [0.5 / f], none is shorter.
    When the wake-up wait is itself at least [0.5 / f], as the 1 ms of the
    source is, no delay of the whole call is shorter than [0.5 / f]. *)
Theorem step_pulse_timing
    (cfg : settings.t) (self : PumpInterface.t) (count f : Q) (b : board) :
  PumpInterface.max_step_frequency self = Ok f ->
  0 < f ->
  0 <= PumpInterface.wake_up_time self ->
  f == PumpInterface.max_rpm self / 60
       * (360 / PumpInterface.step_angle self)
       * PumpInterface.microsteps self
  /\ pulse_events (settings.PUMP_GPIO_STEP cfg) (0.5 / f)
     = [EvOutput (settings.PUMP_GPIO_STEP cfg) true; EvSleep (0.5 / f);
        EvOutput (settings.PUMP_GPIO_STEP cfg) false; EvSleep (0.5 / f)]
  /\ (exists b',
         PumpInterface.step cfg self count b = (b', Ok tt)
         /\ trace b'
            = trace b
              ++ [EvOutput (settings.PUMP_GPIO_SLEEP cfg) true;
                  EvSleep (PumpInterface.wake_up_time self)]
              ++ List.concat
                   (repeat (pulse_events (settings.PUMP_GPIO_STEP cfg) (0.5 / f))
                      (Z.to_nat (py_int count)))
              ++ [EvOutput (settings.PUMP_GPIO_SLEEP cfg) false])
  /\ (forall x,
         In (EvSleep x)
            (List.concat
               (repeat (pulse_events (settings.PUMP_GPIO_STEP cfg) (0.5 / f))
                  (Z.to_nat (py_int count)))) ->
         x = 0.5 / f /\ ~ x < 0.5 / f)
  /\ (0.5 / f <= PumpInterface.wake_up_time self ->
      forall x,
        In (EvSleep x)
           ([EvOutput (settings.PUMP_GPIO_SLEEP cfg) true;
             EvSleep (PumpInterface.wake_up_time self)]
            ++ List.concat
                 (repeat (pulse_events (settings.PUMP_GPIO_STEP cfg) (0.5 / f))
                    (Z.to_nat (py_int count)))
            ++ [EvOutput (settings.PUMP_GPIO_SLEEP cfg) false]) ->
        ~ x < 0.5 / f).
Proof.
  intros Hf Hpos Hwake.
  split; [exact (proj2 (max_step_frequency_inv self f Hf))|].
  split; [reflexivity|]. split; [|split].
  - destruct (step_ok cfg self f Hf Hpos Hwake count b) as (b' & Hrun & Htr & _).
    exists b'. split; assumption.
  - intros x Hin.
    pose proof (sleeps_of_pulse_train _ _ _ _ Hin) as Hx.
    subst x. split; [reflexivity | apply Qlt_irrefl].
  - intros Hlong x Hin.
    apply in_app_iff in Hin as [Hin | Hin].
    + destruct Hin as [Hin | [Hin | []]]; [discriminate|].
      injection Hin as <-. now apply Qle_not_lt.
    + apply in_app_iff in Hin as [Hin | Hin].
      * pose proof (sleeps_of_pulse_train _ _ _ _ Hin) as Hx.
        subst x. apply Qlt_irrefl.
      * destruct Hin as [Hin | []]. discriminate.
Qed.

(** Two steps of the pump of the source (30 rpm, 1.8 degrees, 8
    microsteps): the frequency is 800 Hz and each hold 1/1600 s. *)
Lemma step_pulse_timing_witness :
  exists f b',
    f == 800
    /\ 0.5 / f == 1 # 1600
    /\ PumpInterface.step (electrode 1 0) (PumpInterface.instance 1050)
         2.1 board0 = (b', Ok tt)
    /\ trace b'
       = [EvOutput 17 true; EvSleep 1e-3;
          EvOutput 27 true; EvSleep (0.5 / f);
          EvOutput 27 false; EvSleep (0.5 / f);
          EvOutput 27 true; EvSleep (0.5 / f);
          EvOutput 27 false; EvSleep (0.5 / f);
          EvOutput 17 false].
Proof.
  exists (30 / 60 * (360 / 1.8 * 8)).
  destruct (step_pulse_timing (electrode 1 0) (PumpInterface.instance 1050)
              2.1 (30 / 60 * (360 / 1.8 * 8)) board0 eq_refl)
    as (_ & _ & (b' & Hrun & Htr) & _);
    [reflexivity | discriminate |].
  exists b'. split; [reflexivity|]. split; [reflexivity|].
  split; [exact Hrun | exact Htr].
Defined.

(** C6.  [pump 0] emits no pulse: with the step line wired to a channel of
    its own it is never set high.  The driver is still woken and put back
    to sleep: sleep line on, a wait of [wake_up_time], sleep line off.  The
    sleep line ends low and the step line is left as it was, so a pump
    that was idle is idle again. *)
Theorem pump_zero (cfg : settings.t) (self : PumpInterface.t) (b : board) :
  settings.PUMP_GPIO_SLEEP cfg <> settings.PUMP_GPIO_STEP cfg ->
  0 <= PumpInterface.wake_up_time self ->
  exists b',
    PumpInterface.pump cfg self 0 b = (b', Ok tt)
    /\ trace b'
       = trace b
         ++ [EvOutput (settings.PUMP_GPIO_SLEEP cfg) true;
             EvSleep (PumpInterface.wake_up_time self);
             EvOutput (settings.PUMP_GPIO_SLEEP cfg) false]
    /\ pulses (settings.PUMP_GPIO_STEP cfg)
         [EvOutput (settings.PUMP_GPIO_SLEEP cfg) true;
          EvSleep (PumpInterface.wake_up_time self);
          EvOutput (settings.PUMP_GPIO_SLEEP cfg) false] = 0%nat
    /\ ~ In (EvOutput (settings.PUMP_GPIO_STEP cfg) true)
         [EvOutput (settings.PUMP_GPIO_SLEEP cfg) true;
          EvSleep (PumpInterface.wake_up_time self);
          EvOutput (settings.PUMP_GPIO_SLEEP cfg) false]
    /\ level b' (settings.PUMP_GPIO_SLEEP cfg) = false
    /\ level b' (settings.PUMP_GPIO_STEP cfg)
       = level b (settings.PUMP_GPIO_STEP cfg)
    /\ (idle cfg b -> idle cfg b').
Proof.
  intros Hpins Hwake.
  assert (Hneq : (settings.PUMP_GPIO_SLEEP cfg
                  =? settings.PUMP_GPIO_STEP cfg)%Z = false)
    by now apply Z.eqb_neq.
  assert (Hneq' : (settings.PUMP_GPIO_STEP cfg
                   =? settings.PUMP_GPIO_SLEEP cfg)%Z = false)
    by (apply Z.eqb_neq; congruence).
  unfold PumpInterface.pump, PumpInterface.step, bind.
  cbn [GPIO_output]. rewrite time_sleep_ok by assumption.
  change (Z.to_nat (py_int (fl (0 * PumpInterface.steps_per_litre self))))
    with 0%nat.
  cbn [for_range ret level trace].
  eexists. split; [reflexivity|]. cbn [level trace].
  rewrite <- !app_assoc. cbn [app].
  rewrite Z.eqb_refl, Hneq'.
  split; [reflexivity|]. split; [|split; [|split; [|split]]].
  - unfold pulses. cbn. now rewrite Hneq.
  - cbn. intros [H | [H | [H | []]]]; congruence.
  - reflexivity.
  - reflexivity.
  - intros [_ Hstep]. split; cbn [level].
    + now rewrite Z.eqb_refl.
    + now rewrite Hneq'.
Qed.

Lemma pump_zero_witness :
  exists b',
    PumpInterface.pump (electrode 1 0) (PumpInterface.instance 1050) 0 board0
    = (b', Ok tt)
    /\ trace b' = [EvOutput 17 true; EvSleep 1e-3; EvOutput 17 false]
    /\ idle (electrode 1 0) b'.
Proof.
  destruct (pump_zero (electrode 1 0) (PumpInterface.instance 1050) board0)
    as (b' & Hrun & Htr & _ & _ & _ & _ & Hidle);
    [discriminate | discriminate |].
  exists b'. split; [assumption|]. split; [assumption|].
  apply Hidle. split; reflexivity.
Defined.







(** * Further properties *)

(** ** The electrode equations *)

(** X1.  Two-point calibration recovers the electrode: when both voltages
    follow [V = Voffset - slope * ideal_slope temp * (pH - 7)] and the two
    buffers differ, [compute_slope] returns that slope and [compute_offset]
    that offset. *)
Theorem compute_slope_recovers (temp i s off ph1 ph2 : Q) :
  PHTheory.ideal_slope temp = Ok i ->
  ~ ph1 == ph2 ->
  exists s' off',
    PHTheory.compute_slope temp
      ph1 (electrode_voltage off s i ph1)
      ph2 (electrode_voltage off s i ph2) = Ok s'
    /\ s' == s
    /\ PHTheory.compute_offset temp s' ph1 (electrode_voltage off s i ph1)
       = Ok off'
    /\ off' == off.
Proof.
  intros Hi Hph.
  pose proof (ideal_slope_inv temp i Hi) as (H0 & _ & Hn).
  pose proof (nernst_pos temp H0) as Hpos. rewrite <- Hn in Hpos.
  assert (Hd : ~ ph2 - ph1 == 0) by (intro H; apply Hph; lra).
  assert (Hi0 : ~ i == 0) by lra.
  unfold PHTheory.compute_slope, PHTheory.compute_offset.
  rewrite (py_div_ok _ _ Hd). cbn [bind_result].
  rewrite Hi. cbn [bind_result].
  rewrite (py_div_ok _ _ Hi0).
  assert (Hs : (electrode_voltage off s i ph1 - electrode_voltage off s i ph2)
               / (ph2 - ph1) / i == s).
  { unfold electrode_voltage. field. split; assumption. }
  eexists. eexists. split; [reflexivity|]. split; [exact Hs|].
  split; [reflexivity|].
  rewrite Hs. unfold electrode_voltage. ring.
Qed.

(** An ideal electrode (slope 1, offset 0) at 25 degrees in buffers of pH 4
    and 7. *)
Lemma compute_slope_recovers_witness :
  exists i s' off',
    PHTheory.ideal_slope 25 = Ok i
    /\ PHTheory.compute_slope 25
         4 (electrode_voltage 0 1 i 4) 7 (electrode_voltage 0 1 i 7) = Ok s'
    /\ s' == 1
    /\ PHTheory.compute_offset 25 s' 4 (electrode_voltage 0 1 i 4) = Ok off'
    /\ off' == 0.
Proof.
  exists (nernst 25).
  destruct (compute_slope_recovers 25 (nernst 25) 1 0 4 7)
    as (s' & off' & H1 & H2 & H3 & H4);
    [reflexivity | discriminate |].
  exists s', off'. split; [reflexivity|]. repeat split; assumption.
Defined.

(** X2.  The offset does not depend on which calibration point it is
    computed from: with the slope [compute_slope] returns for two points,
    [compute_offset] gives the same voltage at the second point as at the
    first, which is the one [__init__] uses. *)
Theorem compute_offset_either_point (temp ph1 v1 ph2 v2 s o1 : Q) :
  PHTheory.compute_slope temp ph1 v1 ph2 v2 = Ok s ->
  PHTheory.compute_offset temp s ph1 v1 = Ok o1 ->
  exists o2,
    PHTheory.compute_offset temp s ph2 v2 = Ok o2 /\ o2 == o1.
Proof.
  unfold PHTheory.compute_slope, PHTheory.compute_offset.
  destruct (py_div (v1 - v2) (ph2 - ph1)) as [q|] eqn:Eq; [|discriminate].
  cbn [bind_result].
  destruct (PHTheory.ideal_slope temp) as [i|] eqn:Ei; [|discriminate].
  cbn [bind_result]. intros Hs Ho. injection Ho as <-.
  apply py_div_inv in Eq as [Hd ->].
  apply py_div_inv in Hs as [Hi ->].
  eexists. split; [reflexivity|].
  field. split; assumption.
Qed.

Lemma compute_offset_either_point_witness :
  exists s o1 o2,
    PHTheory.compute_slope 21.2 4 1.418 7 1.224 = Ok s
    /\ PHTheory.compute_offset 21.2 s 4 1.418 = Ok o1
    /\ PHTheory.compute_offset 21.2 s 7 1.224 = Ok o2
    /\ o2 == o1.
Proof.
  destruct (PHTheory.compute_slope 21.2 4 1.418 7 1.224) as [s|] eqn:Es;
    [|vm_compute in Es; discriminate].
  destruct (PHTheory.compute_offset 21.2 s 4 1.418) as [o1|] eqn:Eo.
  - destruct (compute_offset_either_point 21.2 4 1.418 7 1.224 s o1 Es Eo)
      as (o2 & H2 & Heq).
    exists s, o1, o2. repeat split; assumption.
  - exfalso. unfold PHTheory.compute_offset in Eo.
    rewrite (ideal_slope_in_range 21.2) in Eo; discriminate.
Defined.

(** ** The calibration object *)

(** What a constructed calibration holds. *)
Lemma init_ok_fit (cfg : settings.t) (point1 point2 : settings.point)
    (cal : PHCalibration.t) :
  settings.points (settings.PH_CALIBRATION cfg) = [point1; point2] ->
  PHCalibration.__init__ cfg = Ok cal ->
  PHTheory.compute_slope (settings.temperature (settings.PH_CALIBRATION cfg))
    (settings.ph point1) (settings.voltage point1)
    (settings.ph point2) (settings.voltage point2)
  = Ok (PHCalibration.slope cal)
  /\ PHTheory.compute_offset
       (settings.temperature (settings.PH_CALIBRATION cfg))
       (PHCalibration.slope cal)
       (settings.ph point1) (settings.voltage point1)
     = Ok (PHCalibration.offset cal).
Proof.
  intros Hpts. unfold PHCalibration.__init__. rewrite Hpts.
  destruct (PHTheory.compute_slope _ _ _ _ _) as [s|]; [|discriminate].
  cbn [bind_result].
  destruct (PHTheory.compute_offset _ s _ _) as [o|] eqn:Eo; [|discriminate].
  cbn [bind_result].
  destruct (Qltb _ (Qabs (s - 1))); [discriminate|].
  destruct (Qltb _ (Qabs _)); [discriminate|].
  intro H. injection H as <-. cbn [PHCalibration.slope PHCalibration.offset].
  split; [reflexivity | exact Eo].
Qed.

Lemma init_ok_slope_pos (cfg : settings.t) (cal : PHCalibration.t) :
  PHCalibration.__init__ cfg = Ok cal -> 0 < PHCalibration.slope cal.
Proof.
  intro Hinit.
  destruct (init_ok_two_points cfg cal Hinit) as (p1 & p2 & Hpts).
  destruct (init_ok_inv cfg p1 p2 Hpts cal Hinit) as [Hs _].
  change PHCalibration.max_slope_drift with 0.2 in Hs.
  apply Qabs_Qle_condition in Hs. lra.
Qed.

Lemma calibration_compute_ph_value (cal : PHCalibration.t) (temp v : Q) :
  0 < PHCalibration.slope cal -> 0 <= temp -> temp <= 100 ->
  PHCalibration.compute_ph cal temp v
  = Ok (7 + (PHCalibration.offset cal - v)
            / (PHCalibration.slope cal * nernst temp)).
Proof.
  intros Hs H0 H1.
  pose proof (nernst_pos temp H0) as Hi.
  assert (Hd : ~ PHCalibration.slope cal * nernst temp == 0).
  { intro H. apply Qmult_integral in H as [H | H]; lra. }
  unfold PHCalibration.compute_ph, PHTheory.compute_ph.
  rewrite (ideal_slope_in_range temp H0 H1). cbn [bind_result].
  now rewrite (py_div_ok _ _ Hd).
Qed.

(** X3.  A calibration that was constructed reproduces its two
    calibration points: at the reference temperature, [compute_ph] of each
    point's voltage is that point's pH. *)
Theorem calibration_reproduces_points
    (cfg : settings.t) (point1 point2 : settings.point)
    (cal : PHCalibration.t) :
  settings.points (settings.PH_CALIBRATION cfg) = [point1; point2] ->
  PHCalibration.__init__ cfg = Ok cal ->
  exists r1 r2,
    PHCalibration.compute_ph cal
      (settings.temperature (settings.PH_CALIBRATION cfg))
      (settings.voltage point1) = Ok r1
    /\ r1 == settings.ph point1
    /\ PHCalibration.compute_ph cal
         (settings.temperature (settings.PH_CALIBRATION cfg))
         (settings.voltage point2) = Ok r2
    /\ r2 == settings.ph point2.
Proof.
  intros Hpts Hinit.
  destruct (init_ok_fit cfg point1 point2 cal Hpts Hinit) as [Hs Ho].
  pose proof (init_ok_slope_pos cfg cal Hinit) as Hpos.
  destruct (compute_offset_either_point _ _ _ _ _ _ _ Hs Ho)
    as (o2 & Ho2 & Heq).
  unfold PHTheory.compute_offset in Ho, Ho2.
  destruct (PHTheory.ideal_slope _) as [i|] eqn:Ei; [|discriminate].
  cbn [bind_result] in Ho, Ho2.
  injection Ho as Ho. injection Ho2 as Ho2.
  apply ideal_slope_inv in Ei as (H0 & H1 & ->).
  pose proof (nernst_pos _ H0) as Hi.
  rewrite !(calibration_compute_ph_value cal _ _ Hpos H0 H1).
  eexists. eexists. split; [reflexivity|]. split; [|split; [reflexivity|]].
  - rewrite <- Ho. field. split; lra.
  - rewrite <- Heq, <- Ho2. field. split; lra.
Qed.

Lemma calibration_reproduces_points_witness :
  exists cal r1 r2,
    PHCalibration.__init__ (electrode 1.1 0.01) = Ok cal
    /\ PHCalibration.compute_ph cal 25 (1.251 + 0.01 + 1.1 * nernst 25 * 3)
       = Ok r1
    /\ r1 == 4
    /\ PHCalibration.compute_ph cal 25 (1.251 + 0.01) = Ok r2
    /\ r2 == 7.
Proof.
  destruct (PHCalibration.__init__ (electrode 1.1 0.01)) as [cal|] eqn:E;
    [|vm_compute in E; discriminate].
  destruct (calibration_reproduces_points (electrode 1.1 0.01) _ _ cal
              eq_refl E) as (r1 & r2 & H1 & H2 & H3 & H4).
  exists cal, r1, r2. split; [reflexivity|].
  repeat split; assumption.
Defined.

(** X4.  A calibration with any number of points other than two is
    refused before anything is computed, whatever the points, the
    temperature and the ADC offset are. *)
Theorem calibration_init_arity (cfg : settings.t) :
  List.length (settings.points (settings.PH_CALIBRATION cfg)) <> 2%nat ->
  PHCalibration.__init__ cfg = Raise PHCalibration.unsupported_arity.
Proof.
  unfold PHCalibration.__init__.
  destruct (settings.points _) as [|p1 [|p2 [|p3 l]]]; cbn; intro H;
    try reflexivity.
  now contradiction H.
Qed.

Lemma calibration_init_arity_witness :
  PHCalibration.__init__
    {| settings.PH_CALIBRATION :=
         {| settings.points := [ {| settings.ph := 7;
                                    settings.voltage := 1.224 |} ];
            settings.temperature := 21.2 |};
       settings.PH_ADC_V_OFFSET := 1.251;
       settings.PH_ADC_V_REF := 2.5;
       settings.PH_ADC_I2C_BUSN := 1;
       settings.PH_ADC_I2C_ADDR := 79;
       settings.PUMP_CALIBRATION := {| settings.steps_per_litre := 1050 |};
       settings.PUMP_GPIO_SLEEP := 17;
       settings.PUMP_GPIO_STEP := 27 |}
  = Raise PHCalibration.unsupported_arity.
Proof.
  apply calibration_init_arity. cbn. discriminate.
Defined.

(** X5.  With two points of different pH, a reference temperature below 0
    or above 100 makes the constructor raise the temperature exception of
    [ideal_slope]: no drift check is reached. *)
Theorem calibration_init_temperature
    (cfg : settings.t) (point1 point2 : settings.point) :
  settings.points (settings.PH_CALIBRATION cfg) = [point1; point2] ->
  ~ settings.ph point1 == settings.ph point2 ->
  settings.temperature (settings.PH_CALIBRATION cfg) < 0
  \/ 100 < settings.temperature (settings.PH_CALIBRATION cfg) ->
  PHCalibration.__init__ cfg = Raise PHTheory.temperature_out_of_range.
Proof.
  intros Hpts Hph Htemp.
  assert (Hd : ~ settings.ph point2 - settings.ph point1 == 0)
    by (intro H; apply Hph; lra).
  unfold PHCalibration.__init__, PHTheory.compute_slope.
  rewrite Hpts, (py_div_ok _ _ Hd). cbn [bind_result].
  now rewrite (ideal_slope_out_of_range _ Htemp).
Qed.

Lemma calibration_init_temperature_witness :
  PHCalibration.__init__
    {| settings.PH_CALIBRATION :=
         {| settings.points :=
              [ {| settings.ph := 4; settings.voltage := 1.418 |};
                {| settings.ph := 7; settings.voltage := 1.224 |} ];
            settings.temperature := 100.5 |};
       settings.PH_ADC_V_OFFSET := 1.251;
       settings.PH_ADC_V_REF := 2.5;
       settings.PH_ADC_I2C_BUSN := 1;
       settings.PH_ADC_I2C_ADDR := 79;
       settings.PUMP_CALIBRATION := {| settings.steps_per_litre := 1050 |};
       settings.PUMP_GPIO_SLEEP := 17;
       settings.PUMP_GPIO_STEP := 27 |}
  = Raise PHTheory.temperature_out_of_range.
Proof.
  eapply calibration_init_temperature;
    [reflexivity | cbn; discriminate | right; cbn; reflexivity].
Defined.

(** X6.  For a constructed calibration and a temperature in [0, 100],
    [compute_ph] is strictly decreasing in the voltage: a higher electrode
    voltage reads as a lower pH. *)
Theorem calibration_ph_decreasing
    (cfg : settings.t) (cal : PHCalibration.t) (temp v v' : Q) :
  PHCalibration.__init__ cfg = Ok cal ->
  0 <= temp -> temp <= 100 ->
  v < v' ->
  exists p p',
    PHCalibration.compute_ph cal temp v = Ok p
    /\ PHCalibration.compute_ph cal temp v' = Ok p'
    /\ p' < p.
Proof.
  intros Hinit H0 H1 Hv.
  pose proof (init_ok_slope_pos cfg cal Hinit) as Hs.
  pose proof (nernst_pos temp H0) as Hi.
  rewrite !(calibration_compute_ph_value cal temp _ Hs H0 H1).
  eexists. eexists. split; [reflexivity|]. split; [reflexivity|].
  assert (Hd : 0 < PHCalibration.slope cal * nernst temp)
    by now apply Qmult_lt_0_compat.
  apply Qplus_lt_r. unfold Qdiv.
  apply Qmult_lt_compat_r; [now apply Qinv_lt_0_compat | lra].
Qed.

Lemma calibration_ph_decreasing_witness :
  exists cal p p',
    PHCalibration.__init__ (electrode 1 0) = Ok cal
    /\ PHCalibration.compute_ph cal 30 1.2 = Ok p
    /\ PHCalibration.compute_ph cal 30 1.3 = Ok p'
    /\ p' < p.
Proof.
  destruct (PHCalibration.__init__ (electrode 1 0)) as [cal|] eqn:E;
    [|vm_compute in E; discriminate].
  destruct (calibration_ph_decreasing (electrode 1 0) cal 30 1.2 1.3 E)
    as (p & p' & H1 & H2 & H3); [discriminate | discriminate | reflexivity |].
  exists cal, p, p'. split; [reflexivity|]. repeat split; assumption.
Defined.

(** X7.  For a constructed calibration the offset voltage reads as pH 7 at
    every temperature in [0, 100]: temperature compensation turns the
    line about that point. *)
Theorem calibration_ph7_at_offset
    (cfg : settings.t) (cal : PHCalibration.t) (temp : Q) :
  PHCalibration.__init__ cfg = Ok cal ->
  0 <= temp -> temp <= 100 ->
  exists p,
    PHCalibration.compute_ph cal temp (PHCalibration.offset cal) = Ok p
    /\ p == 7.
Proof.
  intros Hinit H0 H1.
  pose proof (init_ok_slope_pos cfg cal Hinit) as Hs.
  pose proof (nernst_pos temp H0) as Hi.
  rewrite (calibration_compute_ph_value cal temp _ Hs H0 H1).
  eexists. split; [reflexivity|].
  field. split; lra.
Qed.

Lemma calibration_ph7_at_offset_witness :
  exists cal p,
    PHCalibration.__init__ (electrode 0.9 0.02) = Ok cal
    /\ PHCalibration.compute_ph cal 60 (PHCalibration.offset cal) = Ok p
    /\ p == 7.
Proof.
  destruct (PHCalibration.__init__ (electrode 0.9 0.02)) as [cal|] eqn:E;
    [|vm_compute in E; discriminate].
  destruct (calibration_ph7_at_offset (electrode 0.9 0.02) cal 60 E)
    as (p & H1 & H2); [discriminate | discriminate |].
  exists cal, p. split; [reflexivity|]. split; assumption.
Defined.

(** ** The ADC *)

(** X8.  [value_to_voltage] maps a 12-bit value into [0, PH_ADC_V_REF):
    with a positive reference, a value in [0, 4096) converts to a voltage
    that is not negative and stays below the reference, and a larger value
    converts to a larger voltage. *)
Theorem value_to_voltage_range (cfg : settings.t) (value value' : Q) :
  0 < settings.PH_ADC_V_REF cfg ->
  0 <= value -> value < value' -> value' < 4096 ->
  0 <= ADCInterface.value_to_voltage cfg value
  /\ ADCInterface.value_to_voltage cfg value
     < ADCInterface.value_to_voltage cfg value'
  /\ ADCInterface.value_to_voltage cfg value' < settings.PH_ADC_V_REF cfg.
Proof.
  intros Href H0 Hlt H1.
  unfold ADCInterface.value_to_voltage.
  change (inject_Z (Z.shiftl 1 ADCInterface.adc_bits)) with 4096.
  set (r := settings.PH_ADC_V_REF cfg) in *.
  assert (E : forall x, x * r / 4096 == (r / 4096) * x) by (intro; field).
  assert (Hr : 0 < r / 4096) by (apply Qlt_shift_div_l; lra).
  rewrite !E. split; [|split].
  - apply Qmult_le_0_compat; lra.
  - now apply Qmult_lt_l.
  - assert (H : r / 4096 * value' < r / 4096 * 4096)
      by now apply Qmult_lt_l.
    assert (E' : r / 4096 * 4096 == r) by field.
    lra.
Qed.

Lemma value_to_voltage_range_witness :
  0 <= ADCInterface.value_to_voltage (electrode 1 0) 0
  /\ ADCInterface.value_to_voltage (electrode 1 0) 0
     < ADCInterface.value_to_voltage (electrode 1 0) 4095
  /\ ADCInterface.value_to_voltage (electrode 1 0) 4095 < 2.5.
Proof.
  apply (value_to_voltage_range (electrode 1 0) 0 4095); reflexivity
    || discriminate.
Defined.

Lemma get_value_short (cfg : settings.t) (bus : SMBus.t) :
  (List.length (SMBus.wire bus) < 2)%nat ->
  ADCInterface._get_value cfg bus = (bus, Raise OSError).
Proof.
  intro H.
  unfold ADCInterface._get_value, bind, SMBus.read_i2c_block_data.
  apply Nat.ltb_lt in H. now rewrite H.
Qed.

Lemma reading_of_shift (s : byte * byte) :
  (Z.shiftl (SMBus.byte_value (fst s)) 8 + SMBus.byte_value (snd s))%Z
  = reading_of s.
Proof.
  unfold reading_of. pose proof (byte_value_range (fst s)).
  rewrite Z.shiftl_mul_pow2 by lia. change (2 ^ 8)%Z with 256%Z. lia.
Qed.

Lemma get_values_from_device (cfg : settings.t) (samples : list (byte * byte)) :
  forall (acc : list Z) (bus : SMBus.t) (rest : list byte),
    SMBus.wire bus = device_of samples ++ rest ->
    exists bus',
      ADCInterface._get_values_from cfg (List.length samples) acc bus
      = (bus', Ok (acc ++ map reading_of samples))
      /\ SMBus.wire bus' = rest
      /\ SMBus.busn bus' = SMBus.busn bus
      /\ SMBus.transfers bus'
         = SMBus.transfers bus
           ++ repeat (settings.PH_ADC_I2C_ADDR cfg, 0%Z, 2%nat)
                (List.length samples).
Proof.
  induction samples as [|s samples IH]; intros acc bus rest H.
  - exists bus. cbn. rewrite !app_nil_r. now repeat split.
  - cbn [List.length ADCInterface._get_values_from]. unfold bind.
    cbn [device_of flat_map app] in H.
    rewrite (get_value_two_bytes cfg bus (fst s) (snd s)
               (device_of samples ++ rest) H).
    rewrite reading_of_shift.
    destruct (IH (acc ++ [reading_of s])
                (after_read cfg bus (device_of samples ++ rest))
                rest eq_refl) as (bus' & Hrun & Hw & Hb & Htr).
    exists bus'. rewrite Hrun. cbn [map].
    rewrite <- app_assoc. cbn [app]. repeat split; try assumption.
    rewrite Htr. cbn [after_read SMBus.transfers repeat].
    now rewrite <- app_assoc.
Qed.

Lemma get_values_from_short (cfg : settings.t) (n : nat) :
  forall (acc : list Z) (bus : SMBus.t),
    (List.length (SMBus.wire bus) < 2 * n)%nat ->
    exists bus',
      ADCInterface._get_values_from cfg n acc bus = (bus', Raise OSError)
      /\ (List.length (SMBus.wire bus') < 2)%nat
      /\ exists k,
          (k < n)%nat
          /\ List.length (SMBus.wire bus)
             = (2 * k + List.length (SMBus.wire bus'))%nat.
Proof.
  induction n as [|n IH]; intros acc bus H; [lia|].
  cbn [ADCInterface._get_values_from]. unfold bind.
  destruct (SMBus.wire bus) as [|b0 [|b1 rest]] eqn:E.
  - rewrite get_value_short by (rewrite E; cbn; lia).
    exists bus. rewrite E. cbn. repeat split; try lia.
    exists 0%nat. cbn. lia.
  - rewrite get_value_short by (rewrite E; cbn; lia).
    exists bus. rewrite E. cbn. repeat split; try lia.
    exists 0%nat. cbn. lia.
  - rewrite (get_value_two_bytes cfg bus b0 b1 rest E).
    destruct (IH (acc ++ [(Z.shiftl (SMBus.byte_value b0) 8
                           + SMBus.byte_value b1)%Z])
                (after_read cfg bus rest)) as (bus' & Hrun & Hlen & k & Hk & Hw).
    { cbn [after_read SMBus.wire]. cbn [List.length] in H. lia. }
    exists bus'. rewrite Hrun. repeat split; try assumption.
    exists (S k). cbn [after_read SMBus.wire] in Hw.
    cbn [List.length]. split; lia.
Qed.

(** X9.  [_get_values] decodes the device's bytes in order: when the
    device sends 256 two-byte samples, the batch is the list of their
    readings [256 * byte0 + byte1], sample by sample, the bus has made 256
    reads of two bytes and whatever the device sends next is left unread. *)
Theorem get_values_in_order
    (cfg : settings.t) (bus : SMBus.t) (samples : list (byte * byte))
    (rest : list byte) :
  List.length samples = ADCInterface.filter_samples ->
  SMBus.wire bus = device_of samples ++ rest ->
  exists bus',
    ADCInterface._get_values cfg bus = (bus', Ok (map reading_of samples))
    /\ SMBus.wire bus' = rest
    /\ SMBus.transfers bus'
       = SMBus.transfers bus
         ++ repeat (settings.PH_ADC_I2C_ADDR cfg, 0%Z, 2%nat) 256.
Proof.
  intros Hlen Hwire.
  destruct (get_values_from_device cfg samples [] bus rest Hwire)
    as (bus' & Hrun & Hw & _ & Htr).
  exists bus'. unfold ADCInterface._get_values.
  rewrite <- Hlen, Hrun. cbn [app]. repeat split; try assumption.
  now rewrite Htr, Hlen.
Qed.

Lemma get_values_in_order_witness :
  exists bus',
    ADCInterface._get_values (electrode 1 0)
      (ADCInterface.__init__ (electrode 1 0)
         (device_of (repeat (x01, x02) 255 ++ [(x0f, xff)]) ++ [xaa]))
    = (bus', Ok (repeat 258%Z 255 ++ [4095%Z]))
    /\ SMBus.wire bus' = [xaa].
Proof.
  destruct (get_values_in_order (electrode 1 0)
              (ADCInterface.__init__ (electrode 1 0)
                 (device_of (repeat (x01, x02) 255 ++ [(x0f, xff)]) ++ [xaa]))
              (repeat (x01, x02) 255 ++ [(x0f, xff)]) [xaa]
              eq_refl eq_refl) as (bus' & Hrun & Hw & _).
  exists bus'. split; [|exact Hw].
  rewrite Hrun. reflexivity.
Defined.

(** X10.  No partial batch: when the device has fewer than 512 bytes to
    give, [_get_values] raises the bus error; the readings made before the
    failing read are dropped, their bytes are gone from the device, and
    the methods built on the batch raise the same error. *)
Theorem get_values_short_device
    (cfg : settings.t) (sqrt : Q -> Q) (bus : SMBus.t) :
  (List.length (SMBus.wire bus) < 512)%nat ->
  exists bus',
    ADCInterface._get_values cfg bus = (bus', Raise OSError)
    /\ (List.length (SMBus.wire bus') < 2)%nat
    /\ (exists k, (k < 256)%nat
                  /\ List.length (SMBus.wire bus)
                     = (2 * k + List.length (SMBus.wire bus'))%nat)
    /\ ADCInterface.get_value cfg bus = (bus', Raise OSError)
    /\ ADCInterface.get_voltage cfg bus = (bus', Raise OSError)
    /\ ADCInterface.get_value_with_stat cfg sqrt bus = (bus', Raise OSError)
    /\ ADCInterface.get_voltage_with_stat cfg sqrt bus = (bus', Raise OSError).
Proof.
  intro H.
  destruct (get_values_from_short cfg 256 [] bus H)
    as (bus' & Hrun & Hlen & Hk).
  exists bus'.
  assert (Hv : ADCInterface._get_values cfg bus = (bus', Raise OSError))
    by exact Hrun.
  unfold ADCInterface.get_voltage_with_stat, ADCInterface.get_voltage,
    ADCInterface.get_value_with_stat, ADCInterface.get_value, bind.
  rewrite Hv. repeat split; assumption.
Qed.

Lemma get_values_short_device_witness :
  exists bus',
    ADCInterface._get_values (electrode 1 0)
      (ADCInterface.__init__ (electrode 1 0) [x08; x00; x08]) 
    = (bus', Raise OSError)
    /\ SMBus.wire bus' = [x08].
Proof.
  destruct (get_values_short_device (electrode 1 0) (fun q => q)
              (ADCInterface.__init__ (electrode 1 0) [x08; x00; x08]))
    as (bus' & Hrun & _); [cbn; lia|].
  exists bus'. split; [exact Hrun|].
  cbv in Hrun. injection Hrun as <-. reflexivity.
Defined.

Lemma sum_bounds (lo hi : Z) (data : list Z) :
  Forall (fun x => (lo <= x <= hi)%Z) data ->
  inject_Z lo * inject_Z (Z.of_nat (List.length data))
  <= statistics.sum (map inject_Z data)
  /\ statistics.sum (map inject_Z data)
     <= inject_Z hi * inject_Z (Z.of_nat (List.length data)).
Proof.
  induction 1 as [|x data [Hlo Hhi] _ [IHlo IHhi]].
  - cbn [List.length map statistics.sum fold_right Z.of_nat].
    unfold statistics.sum. cbn [fold_right].
    change (inject_Z 0) with 0. split; lra.
  - cbn [List.length map statistics.sum fold_right].
    fold (statistics.sum (map inject_Z data)).
    rewrite Nat2Z.inj_succ. unfold Z.succ. rewrite inject_Z_plus.
    rewrite Zle_Qle in Hlo. rewrite Zle_Qle in Hhi.
    change (inject_Z 1) with 1. split; lra.
Qed.

(** The mean of a batch lies between any bounds of its readings. *)
Lemma mean_bounds (lo hi : Z) (data : list Z) (m : Q) :
  Forall (fun x => (lo <= x <= hi)%Z) data ->
  statistics.mean data = Ok m ->
  inject_Z lo <= m /\ m <= inject_Z hi.
Proof.
  intros Hall Hm.
  destruct (sum_bounds lo hi data Hall) as [Hlo Hhi].
  destruct data as [|x data]; [discriminate|].
  unfold statistics.mean in Hm. injection Hm as <-.
  set (n := inject_Z (Z.of_nat (List.length (x :: data)))) in *.
  assert (Hn : 0 < n).
  { unfold n. change 0 with (inject_Z 0). rewrite <- Zlt_Qlt.
    cbn [List.length]. lia. }
  split.
  - apply Qle_shift_div_l; assumption.
  - apply Qle_shift_div_r; assumption.
Qed.

Lemma reading_of_12_bit (s : byte * byte) :
  (SMBus.byte_value (fst s) < 16)%Z -> (0 <= reading_of s <= 4095)%Z.
Proof.
  unfold reading_of. pose proof (byte_value_range (fst s)).
  pose proof (byte_value_range (snd s)). lia.
Qed.

(** X11.  On a device that keeps the upper four bits of every first byte
    zero, as the MCP3221 does, [get_voltage] over a full batch returns a
    voltage in [0, PH_ADC_V_REF): it is [value_to_voltage] of the mean of
    the 256 readings, and that mean lies in [0, 4095]. *)
Theorem get_voltage_range
    (cfg : settings.t) (bus : SMBus.t) (samples : list (byte * byte))
    (rest : list byte) :
  0 < settings.PH_ADC_V_REF cfg ->
  List.length samples = ADCInterface.filter_samples ->
  Forall (fun s => (SMBus.byte_value (fst s) < 16)%Z) samples ->
  SMBus.wire bus = device_of samples ++ rest ->
  exists bus' m,
    statistics.mean (map reading_of samples) = Ok m
    /\ 0 <= m /\ m <= 4095
    /\ ADCInterface.get_voltage cfg bus
       = (bus', Ok (ADCInterface.value_to_voltage cfg m))
    /\ SMBus.wire bus' = rest
    /\ 0 <= ADCInterface.value_to_voltage cfg m
    /\ ADCInterface.value_to_voltage cfg m < settings.PH_ADC_V_REF cfg.
Proof.
  intros Href Hlen H12 Hwire.
  destruct (get_values_in_order cfg bus samples rest Hlen Hwire)
    as (bus' & Hrun & Hw & _).
  destruct (statistics.mean (map reading_of samples)) as [m|e] eqn:Em.
  2:{ destruct samples; [discriminate Hlen | discriminate Em]. }
  assert (Hall : Forall (fun x => (0 <= x <= 4095)%Z) (map reading_of samples)).
  { apply Forall_map. revert H12. apply Forall_impl.
    intros s Hs. now apply reading_of_12_bit. }
  destruct (mean_bounds 0 4095 _ m Hall Em) as [Hm0 Hm1].
  change (inject_Z 0) with 0 in Hm0. change (inject_Z 4095) with 4095 in Hm1.
  exists bus', m. split; [reflexivity|].
  split; [assumption|]. split; [assumption|]. split.
  - unfold ADCInterface.get_voltage, ADCInterface.get_value, bind, lift, ret.
    now rewrite Hrun, Em.
  - split; [assumption|].
    unfold ADCInterface.value_to_voltage.
    change (inject_Z (Z.shiftl 1 ADCInterface.adc_bits)) with 4096.
    set (r := settings.PH_ADC_V_REF cfg) in *.
    assert (E : m * r / 4096 == (r / 4096) * m) by field.
    assert (Hr : 0 < r / 4096) by (apply Qlt_shift_div_l; lra).
    assert (H : r / 4096 * m < r / 4096 * 4096)
      by (apply Qmult_lt_l; [assumption | lra]).
    assert (E' : r / 4096 * 4096 == r) by field.
    assert (H0 : 0 <= r / 4096 * m) by (apply Qmult_le_0_compat; lra).
    rewrite E. split; lra.
Qed.

Lemma get_voltage_range_witness :
  exists bus' v,
    ADCInterface.get_voltage (electrode 1 0)
      (ADCInterface.__init__ (electrode 1 0)
         (device_of (repeat (x0f, xff) 256)))
    = (bus', Ok v)
    /\ 0 <= v /\ v < 2.5.
Proof.
  destruct (get_voltage_range (electrode 1 0)
              (ADCInterface.__init__ (electrode 1 0)
                 (device_of (repeat (x0f, xff) 256)))
              (repeat (x0f, xff) 256) [])
    as (bus' & m & _ & _ & _ & Hrun & _ & H0 & H1).
  - reflexivity.
  - reflexivity.
  - apply Forall_forall. intros s Hs. apply repeat_spec in Hs. subst s.
    reflexivity.
  - cbn [ADCInterface.__init__ SMBus.wire]. now rewrite app_nil_r.
  - exists bus', (ADCInterface.value_to_voltage (electrode 1 0) m).
    split; [exact Hrun|]. split; assumption.
Defined.

(** ** The pH interface *)

Lemma mean_nonempty (data : list Z) :
  data <> [] -> exists m, statistics.mean data = Ok m.
Proof.
  destruct data as [|x data]; [congruence|]. intros _. now eexists.
Qed.

Lemma batch_nonempty (samples : list (byte * byte)) :
  List.length samples = ADCInterface.filter_samples ->
  map reading_of samples <> [].
Proof.
  destruct samples; [discriminate | discriminate].
Qed.

(** X12.  [get_ph] samples before it looks at the temperature: with a
    temperature outside [0, 100] and a device that delivers a full batch,
    the 512 bytes are read first and only then the temperature exception
    is raised; the calibration is untouched. *)
Theorem get_ph_temperature_out_of_range
    (cfg : settings.t) (self : PHInterface.t) (temp : Q)
    (samples : list (byte * byte)) (rest : list byte) :
  List.length samples = ADCInterface.filter_samples ->
  SMBus.wire (PHInterface.adc self) = device_of samples ++ rest ->
  temp < 0 \/ 100 < temp ->
  exists self',
    PHInterface.get_ph cfg temp self
    = (self', Raise PHTheory.temperature_out_of_range)
    /\ SMBus.wire (PHInterface.adc self') = rest
    /\ SMBus.transfers (PHInterface.adc self')
       = SMBus.transfers (PHInterface.adc self)
         ++ repeat (settings.PH_ADC_I2C_ADDR cfg, 0%Z, 2%nat) 256
    /\ PHInterface.calibration self' = PHInterface.calibration self.
Proof.
  intros Hlen Hwire Htemp.
  destruct (get_values_in_order cfg _ samples rest Hlen Hwire)
    as (bus' & Hrun & Hw & Htr).
  destruct (mean_nonempty _ (batch_nonempty samples Hlen)) as [m Hm].
  unfold PHInterface.get_ph, PHInterface.on_adc,
    PHInterface.calibration_compute_ph, ADCInterface.get_voltage,
    ADCInterface.get_value, bind, lift, ret.
  rewrite Hrun, Hm.
  unfold PHCalibration.compute_ph, PHTheory.compute_ph.
  rewrite (ideal_slope_out_of_range temp Htemp). cbn [bind_result].
  eexists. split; [reflexivity|]. cbn. now repeat split.
Qed.

Lemma get_ph_temperature_out_of_range_witness :
  exists self',
    PHInterface.get_ph (electrode 1 0) (-5)
      {| PHInterface.adc :=
           ADCInterface.__init__ (electrode 1 0)
             (device_of (repeat (x08, x00) 256) ++ [x01]);
         PHInterface.calibration :=
           {| PHCalibration.slope := 1; PHCalibration.offset := 1.251 |} |}
    = (self', Raise PHTheory.temperature_out_of_range)
    /\ SMBus.wire (PHInterface.adc self') = [x01].
Proof.
  destruct (get_ph_temperature_out_of_range (electrode 1 0)
              {| PHInterface.adc :=
                   ADCInterface.__init__ (electrode 1 0)
                     (device_of (repeat (x08, x00) 256) ++ [x01]);
                 PHInterface.calibration :=
                   {| PHCalibration.slope := 1;
                      PHCalibration.offset := 1.251 |} |}
              (-5) (repeat (x08, x00) 256) [x01] eq_refl eq_refl)
    as (self' & Hrun & Hw & _); [left; reflexivity|].
  exists self'. split; assumption.
Defined.

Lemma interface_init_inv (cfg : settings.t) (device : list byte)
    (self : PHInterface.t) :
  PHInterface.__init__ cfg device = Ok self ->
  PHCalibration.__init__ cfg = Ok (PHInterface.calibration self)
  /\ PHInterface.adc self = ADCInterface.__init__ cfg device.
Proof.
  unfold PHInterface.__init__.
  destruct (PHCalibration.__init__ cfg) as [cal|]; [|discriminate].
  cbn [bind_result]. intro H. injection H as <-. now split.
Qed.

(** X13.  A measurement with statistics on a freshly constructed
    interface succeeds whenever the temperature is in [0, 100] and the
    device delivers a full batch; no division in it can fail.  The
    dictionary has the six entries value, value_dev, voltage, voltage_dev,
    ph and ph_dev in that order, with
    [ph = 7 + (offset - voltage) / (slope * ideal_slope temp)] and
    [ph_dev = voltage_dev / ideal_slope temp]. *)
Theorem get_ph_with_stat_succeeds
    (cfg : settings.t) (sqrt : Q -> Q) (self : PHInterface.t) (temp : Q)
    (samples : list (byte * byte)) (rest : list byte) :
  PHInterface.__init__ cfg (device_of samples ++ rest) = Ok self ->
  List.length samples = ADCInterface.filter_samples ->
  0 <= temp -> temp <= 100 ->
  exists self' m d i,
    statistics.mean (map reading_of samples) = Ok m
    /\ statistics.pstdev sqrt (map reading_of samples) = Ok d
    /\ PHTheory.ideal_slope temp = Ok i
    /\ PHInterface.get_ph_with_stat cfg sqrt temp self
       = (self',
          Ok [("value"%string, m);
              ("value_dev"%string, d);
              ("voltage"%string, ADCInterface.value_to_voltage cfg m);
              ("voltage_dev"%string, ADCInterface.value_to_voltage cfg d);
              ("ph"%string,
                7 + (PHCalibration.offset (PHInterface.calibration self)
                     - ADCInterface.value_to_voltage cfg m)
                    / (PHCalibration.slope (PHInterface.calibration self) * i));
              ("ph_dev"%string, ADCInterface.value_to_voltage cfg d / i)])
    /\ SMBus.wire (PHInterface.adc self') = rest
    /\ PHInterface.calibration self' = PHInterface.calibration self.
Proof.
  intros Hinit Hlen H0 H1.
  destruct (interface_init_inv cfg _ self Hinit) as [Hcal Hadc].
  pose proof (init_ok_slope_pos cfg _ Hcal) as Hs.
  assert (Hwire : SMBus.wire (PHInterface.adc self) = device_of samples ++ rest)
    by now rewrite Hadc.
  destruct (get_values_in_order cfg _ samples rest Hlen Hwire)
    as (bus' & Hrun & Hw & _).
  destruct (mean_nonempty _ (batch_nonempty samples Hlen)) as [m Hm].
  pose proof (nernst_pos temp H0) as Hi.
  assert (Hi0 : ~ nernst temp == 0) by lra.
  exists {| PHInterface.adc := bus';
            PHInterface.calibration := PHInterface.calibration self |},
    m, (sqrt (statistics.sum
                (map (fun x => (inject_Z x - m) * (inject_Z x - m))
                   (map reading_of samples))
              / inject_Z (Z.of_nat (List.length (map reading_of samples))))),
    (nernst temp).
  split; [exact Hm|].
  split; [unfold statistics.pstdev, statistics.pvariance; now rewrite Hm|].
  split; [exact (ideal_slope_in_range temp H0 H1)|].
  split; [|now split].
  unfold PHInterface.get_ph_with_stat, PHInterface.on_adc,
    PHInterface.calibration_compute_ph,
    ADCInterface.get_voltage_with_stat, ADCInterface.get_value_with_stat,
    bind, lift, ret.
  rewrite Hrun, Hm.
  unfold statistics.pstdev, statistics.pvariance. rewrite Hm.
  cbn [bind_result ADCInterface.dict_getitem ADCInterface.dict_get
       ADCInterface.dict_set String.eqb Ascii.eqb Bool.eqb
       PHInterface.calibration PHInterface.adc].
  rewrite (calibration_compute_ph_value _ temp _ Hs H0 H1).
  rewrite (ideal_slope_in_range temp H0 H1), (py_div_ok _ _ Hi0).
  reflexivity.
Qed.

Lemma get_ph_with_stat_succeeds_witness :
  exists self self' data,
    PHInterface.__init__ (electrode 1 0)
      (device_of (repeat (x08, x00) 256) ++ []) = Ok self
    /\ PHInterface.get_ph_with_stat (electrode 1 0)
         (fun q => Z.sqrt (Qnum q * Zpos (Qden q)) # Qden q) 25 self
       = (self', Ok data)
    /\ List.length data = 6%nat.
Proof.
  destruct (PHInterface.__init__ (electrode 1 0)
              (device_of (repeat (x08, x00) 256) ++ [])) as [self|] eqn:E;
    [|vm_compute in E; discriminate].
  destruct (get_ph_with_stat_succeeds (electrode 1 0)
              (fun q => Z.sqrt (Qnum q * Zpos (Qden q)) # Qden q)
              self 25 (repeat (x08, x00) 256) [] E eq_refl)
    as (self' & m & d & i & _ & _ & _ & Hrun & _);
    [discriminate | discriminate |].
  exists self, self'. eexists. split; [reflexivity|].
  split; [exact Hrun | reflexivity].
Defined.

(** X14.  The two measurement methods agree: whenever [get_ph_with_stat]
    returns, [get_ph] on the same interface and temperature returns the
    value stored under ph, and leaves the interface in the same state. *)
Theorem get_ph_agrees_with_stat
    (cfg : settings.t) (sqrt : Q -> Q) (self self' : PHInterface.t)
    (temp : Q) (data : ADCInterface.dict) :
  PHInterface.get_ph_with_stat cfg sqrt temp self = (self', Ok data) ->
  exists p,
    PHInterface.get_ph cfg temp self = (self', Ok p)
    /\ ADCInterface.dict_get data "ph" = Some p.
Proof.
  unfold PHInterface.get_ph_with_stat, PHInterface.get_ph.
  unfold bind at 1. unfold PHInterface.on_adc at 1.
  destruct (ADCInterface.get_voltage_with_stat cfg sqrt (PHInterface.adc self))
    as [bus' [data0|e]] eqn:E; [|discriminate].
  apply get_voltage_with_stat_inv in E
    as (values & m & d & Hv & Hm & Hd & ->).
  assert (Hvolt : ADCInterface.get_voltage cfg (PHInterface.adc self)
                  = (bus', Ok (ADCInterface.value_to_voltage cfg m))).
  { unfold ADCInterface.get_voltage, ADCInterface.get_value, bind, lift, ret.
    now rewrite Hv, Hm. }
  unfold bind, PHInterface.on_adc, lift, ret,
    PHInterface.calibration_compute_ph.
  rewrite Hvolt.
  cbn [ADCInterface.dict_getitem ADCInterface.dict_get
       ADCInterface.dict_set String.eqb Ascii.eqb Bool.eqb
       PHInterface.calibration PHInterface.adc].
  destruct (PHCalibration.compute_ph _ temp _) as [p|]; [|discriminate].
  destruct (PHTheory.ideal_slope temp) as [i|]; [|discriminate].
  destruct (py_div _ i) as [pd|]; [|discriminate].
  intro H. injection H as <- <-.
  exists p. split; reflexivity.
Qed.

Lemma get_ph_agrees_with_stat_witness :
  exists self self' data p,
    PHInterface.__init__ (electrode 1 0)
      (device_of (repeat (x08, x00) 256) ++ []) = Ok self
    /\ PHInterface.get_ph_with_stat (electrode 1 0)
         (fun q => Z.sqrt (Qnum q * Zpos (Qden q)) # Qden q) 25 self
       = (self', Ok data)
    /\ PHInterface.get_ph (electrode 1 0) 25 self = (self', Ok p)
    /\ ADCInterface.dict_get data "ph" = Some p.
Proof.
  destruct (PHInterface.__init__ (electrode 1 0)
              (device_of (repeat (x08, x00) 256) ++ [])) as [self|] eqn:E;
    [|vm_compute in E; discriminate].
  destruct (PHInterface.get_ph_with_stat (electrode 1 0)
              (fun q => Z.sqrt (Qnum q * Zpos (Qden q)) # Qden q) 25 self)
    as [self' [data|e]] eqn:Erun.
  - destruct (get_ph_agrees_with_stat _ _ _ _ _ _ Erun) as (p & Hp & Hd).
    exists self, self', data, p. repeat split; assumption.
  - exfalso. vm_compute in E. injection E as <-.
    vm_compute in Erun. discriminate.
Defined.

(** ** The pump, over several calls *)



Lemma pulses_of_pump_trace (sleep_pin step_pin : Z) (wake d : Q) (n : nat) :
  sleep_pin <> step_pin ->
  pulses step_pin
    ([EvOutput sleep_pin true; EvSleep wake]
     ++ pulse_train step_pin d n ++ [EvOutput sleep_pin false]) = n.
Proof.
  intro Hpins. apply Z.eqb_neq in Hpins.
  rewrite !pulses_app, pulses_pulse_train.
  unfold pulses. cbn. rewrite Hpins. cbn. lia.
Qed.



Lemma duration_app (l1 l2 : list event) :
  duration (l1 ++ l2) == duration l1 + duration l2.
Proof.
  induction l1 as [|e l1 IH]; cbn [app duration]; [ring|].
  destruct e; rewrite IH; ring.
Qed.

Lemma duration_pulse_train (p : Z) (d : Q) (n : nat) :
  duration (pulse_train p d n) == inject_Z (Z.of_nat n) * (2 * d).
Proof.
  induction n as [|n IH].
  - cbn. ring.
  - unfold pulse_train in *. cbn [repeat List.concat].
    rewrite duration_app, IH. cbn [pulse_events duration].
    rewrite Nat2Z.inj_succ. unfold Z.succ. rewrite inject_Z_plus.
    change (inject_Z 1) with 1. ring.
Qed.

(** X16.  How long a dose takes: the time [pump] spends sleeping is the
    wake-up time plus one period of the step frequency for each pulse,
    [wake_up_time + pulses / max_step_frequency]. *)
Theorem pump_duration
    (cfg : settings.t) (self : PumpInterface.t) (volume f : Q) (b : board) :
  settings.PUMP_GPIO_SLEEP cfg <> settings.PUMP_GPIO_STEP cfg ->
  PumpInterface.max_step_frequency self = Ok f ->
  0 < f ->
  0 <= PumpInterface.wake_up_time self ->
  exists b' tr,
    PumpInterface.pump cfg self volume b = (b', Ok tt)
    /\ trace b' = trace b ++ tr
    /\ duration tr
       == PumpInterface.wake_up_time self
          + inject_Z (Z.of_nat (pulses (settings.PUMP_GPIO_STEP cfg) tr)) / f.
Proof.
  intros Hpins Hf Hpos Hwake.
  unfold PumpInterface.pump.
  destruct (step_ok cfg self f Hf Hpos Hwake
              (fl (volume * PumpInterface.steps_per_litre self)) b)
    as (b' & Hrun & Htr & _).
  exists b'. eexists. split; [exact Hrun|]. split; [exact Htr|].
  rewrite (pulses_of_pump_trace _ _ _ _ _ Hpins).
  rewrite !duration_app, duration_pulse_train. cbn [duration].
  field. lra.
Qed.

(** On the pump of the source a pulse takes 1/800 s and waking 1 ms. *)
Lemma pump_duration_witness :
  exists b' tr,
    PumpInterface.pump (electrode 1 0) (PumpInterface.instance 1050) 1e-3
      board0 = (b', Ok tt)
    /\ trace b' = tr
    /\ duration tr == 1e-3 + inject_Z (Z.of_nat (pulses 27 tr)) / 800.
Proof.
  destruct (pump_duration (electrode 1 0) (PumpInterface.instance 1050)
              1e-3 (30 / 60 * (360 / 1.8 * 8)) board0)
    as (b' & tr & Hrun & Htr & Hd);
    [discriminate | reflexivity | reflexivity | discriminate |].
  exists b', tr. split; [exact Hrun|]. split; [exact Htr|].
  rewrite Hd.
  assert (H800 : 30 / 60 * (360 / 1.8 * 8) == 800) by reflexivity.
  rewrite H800. reflexivity.
Defined.

Lemma half_period_fails (self : PumpInterface.t) :
  PumpInterface.step_angle self == 0
  \/ PumpInterface.max_rpm self == 0
  \/ PumpInterface.microsteps self == 0 ->
  PumpInterface.max_step_frequency self = Raise ZeroDivisionError
  \/ exists f,
      PumpInterface.max_step_frequency self = Ok f
      /\ py_div 0.5 f = Raise ZeroDivisionError.
Proof.
  intro H. unfold PumpInterface.max_step_frequency.
  destruct (Qeq_dec (PumpInterface.step_angle self) 0) as [Ha | Ha].
  - left. now rewrite (py_div_zero _ _ Ha).
  - right. rewrite (py_div_ok _ _ Ha). cbn [bind_result].
    eexists. split; [reflexivity|]. apply py_div_zero.
    destruct H as [H | [H | H]]; [contradiction | |];
      rewrite H; unfold Qdiv; ring.
Qed.

(** X18.  [step] has no cleanup on failure.  With an attribute that makes
    the step period a division by zero (a zero step angle, zero rpm or
    zero microsteps) and at least one step to make, [step] raises
    [ZeroDivisionError] inside the first pulse: the driver has been woken
    and the step line set high, and both lines are left high. *)
Theorem step_failure_leaves_driver_awake
    (cfg : settings.t) (self : PumpInterface.t) (count : Q) (b : board) :
  settings.PUMP_GPIO_SLEEP cfg <> settings.PUMP_GPIO_STEP cfg ->
  0 <= PumpInterface.wake_up_time self ->
  (1 <= py_int count)%Z ->
  PumpInterface.step_angle self == 0
  \/ PumpInterface.max_rpm self == 0
  \/ PumpInterface.microsteps self == 0 ->
  exists b',
    PumpInterface.step cfg self count b = (b', Raise ZeroDivisionError)
    /\ trace b'
       = trace b
         ++ [EvOutput (settings.PUMP_GPIO_SLEEP cfg) true;
             EvSleep (PumpInterface.wake_up_time self);
             EvOutput (settings.PUMP_GPIO_STEP cfg) true]
    /\ level b' (settings.PUMP_GPIO_SLEEP cfg) = true
    /\ level b' (settings.PUMP_GPIO_STEP cfg) = true.
Proof.
  intros Hpins Hwake Hcount Hzero.
  assert (Hneq : (settings.PUMP_GPIO_SLEEP cfg
                  =? settings.PUMP_GPIO_STEP cfg)%Z = false)
    by now apply Z.eqb_neq.
  destruct (Z.to_nat (py_int count)) as [|n] eqn:En; [lia|].
  unfold PumpInterface.step, bind.
  cbn [GPIO_output]. rewrite time_sleep_ok by assumption.
  rewrite En. cbn [for_range]. unfold bind, PumpInterface.pulse, bind, lift.
  cbn [GPIO_output level trace].
  destruct (half_period_fails self Hzero) as [Hf | (f & Hf & Hd)].
  - rewrite Hf. eexists. split; [reflexivity|]. cbn [level trace].
    rewrite <- !app_assoc, Z.eqb_refl, Hneq, Z.eqb_refl. now repeat split.
  - rewrite Hf, Hd. eexists. split; [reflexivity|]. cbn [level trace].
    rewrite <- !app_assoc, Z.eqb_refl, Hneq, Z.eqb_refl. now repeat split.
Qed.

Lemma step_failure_leaves_driver_awake_witness :
  exists b',
    PumpInterface.step (electrode 1 0)
      {| PumpInterface.max_rpm := 30;
         PumpInterface.step_angle := 0;
         PumpInterface.wake_up_time := 1e-3;
         PumpInterface.microsteps := 8;
         PumpInterface.steps_per_litre := 1050 |}
      3 board0 = (b', Raise ZeroDivisionError)
    /\ trace b' = [EvOutput 17 true; EvSleep 1e-3; EvOutput 27 true]
    /\ level b' 17 = true
    /\ level b' 27 = true.
Proof.
  destruct (step_failure_leaves_driver_awake (electrode 1 0)
              {| PumpInterface.max_rpm := 30;
                 PumpInterface.step_angle := 0;
                 PumpInterface.wake_up_time := 1e-3;
                 PumpInterface.microsteps := 8;
                 PumpInterface.steps_per_litre := 1050 |}
              3 board0)
    as (b' & H);
    [discriminate | discriminate | cbv; discriminate | left; reflexivity |].
  exists b'. exact H.
Defined.
